(** * osbs.tekton: the watch engine, the pipeline-run controller and the pod
      log streamer, embedded as Rocq functions.

    Python values decoded from JSON are values of [json]; a Python exception
    is a value of [exn]; a method that talks to the cluster is a function
    over [world], the state of the conversation with the cluster (the
    replies still to come, the requests sent so far, the cached token, the
    sleeps taken and the clock).  [time.time()] gives a Python float: the
    readings of the clock are binary64 numbers, and the arithmetic on them is
    that of the machine.  A generator is run by a consumer that
    takes every value: what it yields is collected in order. *)

From Stdlib Require Import ZArith List String Ascii Bool Lia Floats.
From Stdlib Require Import Permutation Sorted.
Import ListNotations.
Local Open Scope string_scope.
Local Open Scope Z_scope.
Local Open Scope list_scope.
#[local] Set Warnings "-register-all".
#[local] Set Warnings "-abstract-large-number".
#[local] Set Warnings "-inexact-float".

(** ** Python exceptions and partial functions *)

(** [exc.cause] of an OsbsException, as far as the code inspects it. *)
Inductive cause : Type :=
| CauseConnectionError   (* requests.ConnectionError *)
| CauseTimeout           (* requests.Timeout *)
| CauseOther.

(** The exceptions the module raises, catches or lets through.  In
    osbs.exceptions, OsbsResponseException and OsbsAuthException are
    subclasses of OsbsException; [OsbsException] below stands for the base
    class and its network subclass, with the wrapped cause. *)
Inductive exn : Type :=
| KeyError (key : string)
| IndexError
| TypeError (what : string)
| AttributeError (what : string)
| ValueError
| OverflowError
| OsbsResponseException (status_code : Z)
| OsbsAuthException (message : string)
| OsbsException (message : string) (why : option cause)
| RequestsConnectionError   (* requests.exceptions.ConnectionError *)
| RequestsTimeout.          (* requests.exceptions.Timeout *)

Inductive py (A : Type) : Type :=
| Ok (a : A)
| Raise (e : exn).
Arguments Ok {A} a.
Arguments Raise {A} e.

Definition py_bind {A B} (m : py A) (k : A -> py B) : py B :=
  match m with
  | Ok a => k a
  | Raise e => Raise e
  end.

Notation "x <~ m ;; k" := (py_bind m (fun x => k))
  (at level 61, m at next level, right associativity).

(** ** JSON documents as Python sees them *)

(** A dict keeps its insertion order, hence the association list; every key
    occurs once in a dict, and [assoc] returns its value. *)
Inductive json : Type :=
| JNull                                  (* None *)
| JBool (b : bool)
| JNum (n : Z)
| JStr (s : string)
| JArr (items : list json)
| JObj (fields : list (string * json)).

Fixpoint assoc {V} (k : string) (m : list (string * V)) : option V :=
  match m with
  | [] => None
  | (k', v) :: rest => if String.eqb k' k then Some v else assoc k rest
  end.

(** [m[k] = v] on a dict: the value is replaced in place, a new key goes last. *)
Fixpoint dict_set {V} (k : string) (v : V) (m : list (string * V)) : list (string * V) :=
  match m with
  | [] => [(k, v)]
  | (k', v') :: rest =>
      if String.eqb k' k then (k, v) :: rest else (k', v') :: dict_set k v rest
  end.

(** [j == s] for a str [s]. *)
Definition json_eq_str (j : json) (s : string) : bool :=
  match j with
  | JStr t => String.eqb t s
  | _ => false
  end.

(** [j == 0]: a bool is an int in Python, so [False == 0] holds. *)
Definition json_eq_zero (j : json) : bool :=
  match j with
  | JNum n => Z.eqb n 0
  | JBool b => negb b
  | _ => false
  end.

(** Truth value of a Python object, as [if x] and [not x] test it. *)
Definition truthy (j : json) : bool :=
  match j with
  | JNull => false
  | JBool b => b
  | JNum n => negb (Z.eqb n 0)
  | JStr s => negb (String.eqb s "")
  | JArr l => match l with [] => false | _ => true end
  | JObj m => match m with [] => false | _ => true end
  end.

(** [j[k]] with a str key. *)
Definition getitem (j : json) (k : string) : py json :=
  match j with
  | JObj m => match assoc k m with
              | Some v => Ok v
              | None => Raise (KeyError k)
              end
  | JArr _ => Raise (TypeError "list indices must be integers or slices, not str")
  | JStr _ => Raise (TypeError "string indices must be integers")
  | _ => Raise (TypeError "object is not subscriptable")
  end.

(** [j[0]]. *)
Definition getfirst (j : json) : py json :=
  match j with
  | JArr (x :: _) => Ok x
  | JArr [] => Raise IndexError
  | JStr (String c _) => Ok (JStr (String c ""))
  | JStr EmptyString => Raise IndexError
  | JObj _ => Raise (KeyError "0")
  | _ => Raise (TypeError "object is not subscriptable")
  end.

(** [j.get(k, default)]. *)
Definition dict_get (j : json) (k : string) (default : json) : py json :=
  match j with
  | JObj m => Ok (match assoc k m with Some v => v | None => default end)
  | _ => Raise (AttributeError "get")
  end.

(** [j.items()] and [j.values()]. *)
Definition dict_items (j : json) : py (list (string * json)) :=
  match j with
  | JObj m => Ok m
  | _ => Raise (AttributeError "items")
  end.

Definition dict_values (j : json) : py (list json) :=
  match j with
  | JObj m => Ok (map snd m)
  | _ => Raise (AttributeError "values")
  end.

(** [k in j] for a str [k]: key of a dict, element of a list, substring of a
    str; the other values are not containers. *)
Definition py_in (k : string) (j : json) : py bool :=
  match j with
  | JObj m => Ok (match assoc k m with Some _ => true | None => false end)
  | JArr l => Ok (existsb (fun x => json_eq_str x k) l)
  | JStr s => Ok (match index 0 k s with Some _ => true | None => false end)
  | _ => Raise (TypeError "argument is not iterable")
  end.

Fixpoint chars (s : string) : list json :=
  match s with
  | EmptyString => []
  | String c rest => JStr (String c "") :: chars rest
  end.

(** [for x in j]: the elements of a list, the keys of a dict, the characters
    of a str. *)
Definition py_iter (j : json) : py (list json) :=
  match j with
  | JArr l => Ok l
  | JObj m => Ok (map (fun kv => JStr (fst kv)) m)
  | JStr s => Ok (chars s)
  | _ => Raise (TypeError "object is not iterable")
  end.

(** [any(f(x) for x in l)]: stops at the first true, or at the first raise. *)
Fixpoint py_any {A} (f : A -> py bool) (l : list A) : py bool :=
  match l with
  | [] => Ok false
  | x :: rest => b <~ f x ;; if (b : bool) then Ok true else py_any f rest
  end.

(** ** What the module takes from libraries

    json.loads/json.dumps, str(), datetime.strptime(...).timestamp(),
    urllib's urlparse(...).fragment and parse_qs, and
    osbs.kerberos_ccache.kerberos_ccache_init are not code of this module;
    every function below is defined for any implementation of them. *)
Class Externals : Type := {
  json_loads : string -> py json;
  json_dumps : json -> string;
  py_str : json -> string;
  strptime_timestamp : string -> py Z;
  urlparse_fragment : string -> string;
  parse_qs : string -> list (string * list string);
  kerberos_ccache_init : string -> string -> option string -> py unit
}.

(** ** The conversation with the cluster *)

Inductive verb : Type := GET | POST | PUT | PATCH | DELETE.

(** [urljoin(base, path + "?" + urlencode(query))], kept as its three parts. *)
Record url : Type := Url {
  base : string;
  path : string;
  query : list (string * json)
}.

Record request : Type := Request {
  rq_verb : verb;
  rq_url : url;
  rq_headers : list (string * string);
  rq_verify_ssl : bool;
  rq_kwargs : list (string * json)
}.

(** One line of a streamed body, with what the two decodings used by the
    module give on it: [json.loads(line.decode(guess_json_utf(line)))] and
    [line.decode('utf-8')]. *)
Record line : Type := Line {
  raw : string;
  loads : py json;
  utf8 : py string
}.

(** A response of osbs_http.HttpSession: [body_json] is the outcome of
    [response.json()], [iter_lines] the lines [response.iter_lines()] gives
    and [iter_end] the exception that ends the iteration, if one does. *)
Record response : Type := Response {
  status_code : Z;
  headers : list (string * string);
  content : string;
  content_utf8 : py string;       (* content.decode('utf-8') *)
  body_json : py json;
  iter_lines : list line;
  iter_end : option exn
}.

Record world : Type := World {
  replies : list (py response);   (* outcome of each session call to come *)
  sent : list request;            (* the session calls made, oldest first *)
  token : option string;          (* self.token *)
  slept : list Z;                 (* arguments of time.sleep, oldest first *)
  clock : nat -> float;           (* successive readings of time.time() *)
  ticks : nat                     (* readings taken so far *)
}.

(** A method call: it ends with a value of [A] or an exception, and leaves
    the world changed. *)
Definition io (A : Type) : Type := world -> py A * world.

Definition ret {A} (a : A) : io A := fun w => (Ok a, w).

Definition raise {A} (e : exn) : io A := fun w => (Raise e, w).

Definition lift {A} (r : py A) : io A := fun w => (r, w).

Definition bind {A B} (m : io A) (k : A -> io B) : io B :=
  fun w =>
    match m w with
    | (Ok a, w1) => k a w1
    | (Raise e, w1) => (Raise e, w1)
    end.

Notation "x <- m ;; k" := (bind m (fun x => k))
  (at level 61, m at next level, right associativity).
Notation "m ;;; k" := (bind m (fun _ => k))
  (at level 61, right associativity).

(** A generator run to its end: the values it yields, in order, then how
    it ends. *)
Definition gen (Y A : Type) : Type := world -> list Y * py A * world.

(** A session call: the request is recorded and the next reply is its
    outcome; a world with no reply left refuses the connection. *)
Definition session (rq : request) : io response :=
  fun w =>
    let w' := fun rest =>
      World rest (sent w ++ [rq]) (token w) (slept w) (clock w) (ticks w) in
    match replies w with
    | [] => (Raise RequestsConnectionError, w' [])
    | r :: rest => (r, w' rest)
    end.

Definition sleep (secs : Z) : io unit :=
  fun w => (Ok tt,
            World (replies w) (sent w) (token w) (slept w ++ [secs]) (clock w) (ticks w)).

(** [time.time()]: the next reading of the clock. *)
Definition reading (w : world) : float := clock w (ticks w).

Definition tick (w : world) : world :=
  World (replies w) (sent w) (token w) (slept w) (clock w) (S (ticks w)).

Definition time_time : io float := fun w => (Ok (reading w), tick w).

Definition get_token : io (option string) :=
  fun w => (Ok (token w), w).

Definition set_token (t : string) : io unit :=
  fun w => (Ok tt,
            World (replies w) (sent w) (Some t) (slept w) (clock w) (ticks w)).

(** How a loop body leaves: on to the next item with the loop's variables,
    or out of the enclosing function with a value. *)
Inductive flow (S R : Type) : Type :=
| Next (s : S)
| Return (r : R).
Arguments Next {S R} s.
Arguments Return {S R} r.

(** ** Module constants *)

Definition WATCH_RETRY_SECS : Z := 5.
Definition WATCH_RETRY : nat := 20.
Definition MAX_BAD_RESPONSES : nat := 20.

Definition WAIT_RETRY_SECS : Z := 5.
Definition WAIT_RETRY_HOURS : nat := 5.
Definition WAIT_RETRY : nat :=
  Nat.div (WAIT_RETRY_HOURS * 3600) (Z.to_nat WAIT_RETRY_SECS).

Definition API_VERSION : string := "tekton.dev/v1beta1".

(** [check_response]: anything but 200 (ok) and 201 (created) raises. *)
Definition check_response (r : response) : io unit :=
  if orb (Z.eqb (status_code r) 200) (Z.eqb (status_code r) 201)
  then ret tt
  else raise (OsbsResponseException (status_code r)).

(** Truth value of an attribute that is None or a str. *)
Definition given (o : option string) : bool :=
  match o with
  | Some s => negb (String.eqb s "")
  | None => false
  end.

Definition some_or_empty (o : option string) : string :=
  match o with Some s => s | None => "" end.

Definition lower_ascii (c : ascii) : ascii :=
  let n := nat_of_ascii c in
  if andb (Nat.leb 65 n) (Nat.leb n 90) then ascii_of_nat (n + 32) else c.

Fixpoint lower (s : string) : string :=
  match s with
  | EmptyString => EmptyString
  | String c rest => String (lower_ascii c) (lower rest)
  end.

(** [r.headers[name]]: header names compare without case. *)
Fixpoint header (name : string) (hs : list (string * string)) : option string :=
  match hs with
  | [] => None
  | (k, v) :: rest =>
      if String.eqb (lower k) (lower name) then Some v else header name rest
  end.

(** ** class Openshift *)

Module Openshift.

(** The attributes of an Openshift object once constructed; [self.token],
    which the token exchange assigns, lives in the world. *)
Record t : Type := Make {
  os_api_url : string;
  os_oauth_url : string;
  namespace : string;
  verify_ssl : bool;
  use_auth : bool;
  use_kerberos : bool;
  username : option string;
  password : option string;
  client_cert : option string;
  client_key : option string;
  kerberos_keytab : option string;
  kerberos_principal : option string;
  kerberos_ccache : option string;
  ca : option string
}.

Section Methods.
Context {L : Externals}.
Variable self : t.

Definition build_url (api_path api_version u : string) (prepend_namespace : bool)
    (q : list (string * json)) : url :=
  let u1 := if prepend_namespace
            then ("namespaces/" ++ namespace self ++ "/" ++ u)%string
            else u in
  Url (os_api_url self) (api_path ++ "/" ++ api_version ++ "/" ++ u1)%string q.

(** [_request_args]; [exchange] is the call [self.get_oauth_token()], which
    is reached only when [with_auth] holds. *)
Definition _request_args (exchange : io string) (with_auth : bool)
    (hdrs : list (string * string)) (kwargs : list (string * json))
    : io (list (string * string) * list (string * json)) :=
  hdrs1 <- (if andb with_auth (use_auth self)
            then
              t0 <- get_token ;;
              (match t0 with
               | None => exchange ;;; ret tt
               | Some _ => ret tt
               end) ;;;
              t1 <- get_token ;;
              if given t1
              then ret (dict_set "Authorization" ("Bearer " ++ some_or_empty t1)%string hdrs)
              else raise (OsbsAuthException
                     "Please check your credentials. Token was not retrieved successfully.")
            else ret hdrs) ;;
  kwargs1 <- (if orb (given (client_cert self)) (given (client_key self))
              then
                if andb (given (client_cert self)) (given (client_key self))
                then ret (dict_set "client_key" (JStr (some_or_empty (client_key self)))
                           (dict_set "client_cert" (JStr (some_or_empty (client_cert self)))
                              kwargs))
                else raise (OsbsAuthException
                       "You need to provide both client certificate and key.")
              else ret kwargs) ;;
  ret (hdrs1,
       match ca self with
       | Some c => if verify_ssl self then dict_set "ca" (JStr c) kwargs1 else kwargs1
       | None => kwargs1
       end).

(** [self.get], [self.post], ... : the arguments are prepared, then the
    session is called. *)
Definition call (exchange : io string) (v : verb) (u : url) (with_auth : bool)
    (hdrs : list (string * string)) (kwargs : list (string * json)) : io response :=
  hk <- _request_args exchange with_auth hdrs kwargs ;;
  session (Request v u (fst hk) (verify_ssl self) (snd hk)).

Definition oauth_url : url :=
  Url (os_oauth_url self) ""
      [("response_type", JStr "token"); ("client_id", JStr "openshift-challenging-client")].

(** The first half of [get_oauth_token]: the request that is expected to be
    answered by a redirect.  It goes out with [with_auth=False], so the
    exchange is not entered again from it. *)
Definition redirect_request : io response :=
  let plain := call (ret "") GET oauth_url false [] in
  if use_auth self
  then
    if andb (given (username self)) (given (password self))
    then plain [("allow_redirects", JBool false);
                ("username", JStr (some_or_empty (username self)));
                ("password", JStr (some_or_empty (password self)))]
    else if use_kerberos self
    then
      (if given (kerberos_keytab self)
       then
         if negb (given (kerberos_principal self))
         then raise (OsbsAuthException
                "You need to provide kerberos principal along with the keytab path.")
         else lift (kerberos_ccache_init
                      (some_or_empty (kerberos_principal self))
                      (some_or_empty (kerberos_keytab self))
                      (kerberos_ccache self))
       else ret tt) ;;;
      plain [("allow_redirects", JBool false); ("kerberos_auth", JBool true)]
    else plain [("allow_redirects", JBool false)]
  else plain [("allow_redirects", JBool false)].

(** The second half: the token is read off the redirect. *)
Definition token_of_redirect (r : response) : io string :=
  match header "location" (headers r) with
  | None => ret ""
  | Some redir_url =>
      let parsed_fragment := parse_qs (urlparse_fragment redir_url) in
      match assoc "access_token" parsed_fragment with
      | None => raise (KeyError "access_token")
      | Some [] => raise IndexError
      | Some (tok :: _) => set_token tok ;;; ret tok
      end
  end.

Definition get_oauth_token : io string :=
  r <- redirect_request ;;
  token_of_redirect r.

Definition get := call get_oauth_token GET.
Definition post := call get_oauth_token POST.
Definition put := call get_oauth_token PUT.
Definition patch := call get_oauth_token PATCH.
Definition delete := call get_oauth_token DELETE.

End Methods.

(** *** watch_resource

    The generator is driven by the loop of its consumer: [body s snapshot]
    is one turn of the consumer's [for] loop, on the loop's variables [s].
    It may yield values of its own, go on, leave by [return], or raise; an
    exception of the consumer does not pass through the generator's
    [except] clauses, and a consumer that leaves abandons the generator. *)

(** How one pass through the [try] block ends. *)
Inductive tried (S R : Type) : Type :=
| Drained (s : S)              (* the line iterator is exhausted *)
| Abandoned (r : py R)         (* the consumer returned or raised *)
| Broke (s : S) (e : exn).     (* the generator's own code raised *)
Arguments Drained {S R} s.
Arguments Abandoned {S R} r.
Arguments Broke {S R} s e.

Definition transport (c : option cause) : bool :=
  match c with
  | Some CauseConnectionError | Some CauseTimeout => true
  | _ => false
  end.

(** The [except] clauses of watch_resource, in their order: the new value of
    [bad_responses], and the exception if it is raised again. *)
Definition on_exception (bad_responses : nat) (e : exn) : nat * option exn :=
  match e with
  | OsbsResponseException _ =>
      let bad := S bad_responses in
      (bad, if Nat.ltb MAX_BAD_RESPONSES bad then Some e else None)
  | OsbsAuthException _ => (bad_responses, Some e)
  | OsbsException _ c => (bad_responses, if transport c then None else Some e)
  | RequestsConnectionError => (bad_responses, None)
  | RequestsTimeout => (bad_responses, None)
  | _ => (bad_responses, Some e)
  end.

Section Watch.
Context {L : Externals} {Y S R : Type}.
Variable self : t.
Variable body : S -> json -> gen Y (flow S R).
Variables watch_url get_url : url.

(** [fresh_response = self.get(get_url); check_response(fresh_response);
    fresh_response.json()] *)
Definition fresh_copy : io json :=
  fresh_response <- get self get_url true [] [] ;;
  check_response fresh_response ;;;
  lift (body_json fresh_response).

(** [for line in response.iter_lines(): ...] *)
Fixpoint on_lines (s : S) (ls : list line) (fin : option exn) (w : world)
    : list Y * tried S R * world :=
  match ls with
  | [] =>
      match fin with
      | None => ([], Drained s, w)
      | Some e => ([], Broke s e, w)
      end
  | l :: rest =>
      match loads l with
      | Raise ValueError => on_lines s rest fin w
      | Raise e => ([], Broke s e, w)
      | Ok j =>
          match py_in "object" j with
          | Raise e => ([], Broke s e, w)
          | Ok false => on_lines s rest fin w
          | Ok true =>
              match py_in "type" j with
              | Raise e => ([], Broke s e, w)
              | Ok false => on_lines s rest fin w
              | Ok true =>
                  match fresh_copy w with
                  | (Raise e, w1) => ([], Broke s e, w1)
                  | (Ok snapshot, w1) =>
                      match body s snapshot w1 with
                      | (ys, Raise e, w2) => (ys, Abandoned (Raise e), w2)
                      | (ys, Ok (Return r), w2) => (ys, Abandoned (Ok r), w2)
                      | (ys, Ok (Next s'), w2) =>
                          match on_lines s' rest fin w2 with
                          | (ys', t, w3) => (ys ++ ys', t, w3)
                          end
                      end
                  end
              end
          end
      end
  end.

(** The [try] block of one connection attempt. *)
Definition attempt (s : S) (w : world) : list Y * tried S R * world :=
  match (response <- get self watch_url true [("Connection", "close")]
                       [("stream", JBool true)] ;;
         check_response response ;;;
         ret response) w with
  | (Raise e, w1) => ([], Broke s e, w1)
  | (Ok response, w1) => on_lines s (iter_lines response) (iter_end response) w1
  end.

Definition log_and_sleep : io unit := sleep WATCH_RETRY_SECS.

(** [for _ in range(n): try: ... except ...: ...; log_and_sleep()] *)
Fixpoint watch_loop (n : nat) (bad_responses : nat) (s : S) (w : world)
    : list Y * py (flow S R) * world :=
  match n with
  | O => ([], Ok (Next s), w)
  | Datatypes.S n' =>
      match attempt s w with
      | (ys, Abandoned (Ok r), w1) => (ys, Ok (Return r), w1)
      | (ys, Abandoned (Raise e), w1) => (ys, Raise e, w1)
      | (ys, Drained s', w1) =>
          match watch_loop n' bad_responses s' (snd (log_and_sleep w1)) with
          | (ys', r, w2) => (ys ++ ys', r, w2)
          end
      | (ys, Broke s' e, w1) =>
          match on_exception bad_responses e with
          | (_, Some e') => (ys, Raise e', w1)
          | (bad, None) =>
              match watch_loop n' bad s' (snd (log_and_sleep w1)) with
              | (ys', r, w2) => (ys ++ ys', r, w2)
              end
          end
      end
  end.

End Watch.

Section WatchResource.
Context {L : Externals} {Y S R : Type}.

Definition watch_url (self : t) (api_path api_version resource_type
    resource_name : string) (request_args : list (string * json)) : url :=
  build_url self api_path api_version
    ("watch/namespaces/" ++ namespace self ++ "/" ++ resource_type
     ++ "/" ++ resource_name ++ "/")%string
    false request_args.

Definition get_url (self : t) (api_path api_version resource_type
    resource_name : string) : url :=
  build_url self api_path api_version
    (resource_type ++ "/" ++ resource_name)%string true [].

(** [for x in self.watch_resource(...): body]: [Next s] when the generator
    ends with the loop's variables at [s], [Return r] when the consumer
    returned [r] from inside the loop. *)
Definition watch_resource (self : t) (api_path api_version resource_type
    resource_name : string) (request_args : list (string * json))
    (body : S -> json -> gen Y (flow S R)) (s : S) : gen Y (flow S R) :=
  watch_loop self body
    (watch_url self api_path api_version resource_type resource_name request_args)
    (get_url self api_path api_version resource_type resource_name)
    WATCH_RETRY 0 s.

End WatchResource.

(** The generator alone: every snapshot it yields, and how it ends. *)
Definition collect : unit -> json -> gen json (flow unit Empty_set) :=
  fun _ snapshot w => ([snapshot], Ok (Next tt), w).

Definition snapshots {L : Externals} (self : t) (api_path api_version resource_type
    resource_name : string) (request_args : list (string * json)) : gen json unit :=
  fun w =>
    match watch_resource self api_path api_version resource_type resource_name
            request_args collect tt w with
    | (ys, Ok _, w') => (ys, Ok tt, w')
    | (ys, Raise e, w') => (ys, Raise e, w')
    end.

End Openshift.

(** A consumer's loop body that neither yields nor touches the world. *)
Definition pure_body {Y S R} (f : S -> json -> py (flow S R))
    : S -> json -> gen Y (flow S R) :=
  fun s snapshot w => ([], f s snapshot, w).

(** A generator that yields nothing, run as a method. *)
Definition silent {A} (g : gen Empty_set A) : io A :=
  fun w => match g w with (_, r, w') => (r, w') end.

(** [run['status']['conditions'][0][field]] *)
Definition first_condition (run : json) (field : string) : py json :=
  st <~ getitem run "status" ;;
  cs <~ getitem st "conditions" ;;
  c <~ getfirst cs ;;
  getitem c field.

(** [json.loads(x)] on a value taken from a document. *)
Definition loads_value {L : Externals} (x : json) : py json :=
  match x with
  | JStr s => json_loads s
  | _ => Raise (TypeError "the JSON object must be str, bytes or bytearray")
  end.

Definition nl : string := String (ascii_of_nat 10) "".

Fixpoint fold_py {A B} (f : A -> B -> py B) (l : list A) (acc : B) : py B :=
  match l with
  | [] => Ok acc
  | x :: rest => acc' <~ f x acc ;; fold_py f rest acc'
  end.

Fixpoint map_py {A B} (f : A -> py B) (l : list A) : py (list B) :=
  match l with
  | [] => Ok []
  | x :: rest => y <~ f x ;; ys <~ map_py f rest ;; Ok (y :: ys)
  end.

(** ** get_sorted_task_runs: a stable sort on the start time *)

Fixpoint insert_by_key {A} (x : Z * A) (l : list (Z * A)) : list (Z * A) :=
  match l with
  | [] => [x]
  | y :: rest => if Z.ltb (fst x) (fst y) then x :: l else y :: insert_by_key x rest
  end.

Definition sort_by_key {A} (l : list (Z * A)) : list (Z * A) :=
  fold_left (fun acc x => insert_by_key x acc) l [].

Definition start_time {L : Externals} (x : string * json) : py Z :=
  st <~ getitem (snd x) "status" ;;
  t <~ getitem st "startTime" ;;
  match t with
  | JStr s => strptime_timestamp s
  | _ => Raise (TypeError "strptime() argument 1 must be str")
  end.

Definition get_sorted_task_runs {L : Externals} (task_runs : json)
    : py (list (string * json)) :=
  items <~ dict_items task_runs ;;
  keyed <~ map_py (fun x => k <~ start_time x ;; Ok (k, x)) items ;;
  Ok (map snd (sort_by_key keyed)).

(** ** class PipelineRun *)

Module PipelineRun.

Record t : Type := Make {
  os : Openshift.t;
  pipeline_run_name : string;
  input_data : json            (* None when no manifest was given *)
}.

Definition api_path : string := "apis".
Definition api_version : string := API_VERSION.

Section Methods.
Context {L : Externals}.
Variable self : t.

Definition pipeline_run_url : url :=
  Openshift.build_url (os self) api_path api_version
    ("pipelineruns/" ++ pipeline_run_name self)%string true [].

Definition start_pipeline_run : io json :=
  if negb (truthy (input_data self))
  then raise (OsbsException "No input data provided for pipeline run to start" None)
  else
    run_name <- lift (md <~ dict_get (input_data self) "metadata" (JObj []) ;;
                      dict_get md "name" JNull) ;;
    if negb (json_eq_str run_name (pipeline_run_name self))
    then raise (OsbsException
                  ("Pipeline run name provided '" ++ pipeline_run_name self
                   ++ "' is different than in input data '" ++ py_str run_name ++ "'")%string
                  None)
    else
      response <- Openshift.post (os self)
                    (Openshift.build_url (os self) api_path api_version "pipelineruns" true [])
                    true
                    [("Content-Type", "application/json"); ("Accept", "application/json")]
                    [("data", JStr (json_dumps (input_data self)))] ;;
      lift (body_json response).

(** [_check_response]: a 404 raised by [response.json()] reads as None. *)
Definition _check_response (response : response) : py json :=
  match body_json response with
  | Raise (OsbsResponseException c) =>
      if Z.eqb c 404 then Ok JNull else Raise (OsbsResponseException c)
  | r => r
  end.

(** One turn of the loop of wait_for_start. *)
Definition started (_ : unit) (pipeline_run : json) : py (flow unit json) :=
  match (status <~ first_condition pipeline_run "status" ;;
         reason <~ first_condition pipeline_run "reason" ;;
         Ok (status, reason)) with
  | Raise (KeyError _) => Ok (Next tt)
  | Raise e => Raise e
  | Ok (status, reason) =>
      if orb (orb (json_eq_str status "True") (json_eq_str status "False"))
             (andb (json_eq_str status "Unknown") (json_eq_str reason "Running"))
      then Ok (Return pipeline_run)
      else Ok (Next tt)
  end.

Definition wait_for_start : io json :=
  r <- silent (Openshift.watch_resource (os self) api_path api_version "pipelineruns"
                 (pipeline_run_name self) [] (pure_body started) tt) ;;
  ret (match r with Return pipeline_run => pipeline_run | Next _ => JNull end).

Definition get_info (wait : bool) : io json :=
  (if wait then wait_for_start ;;; ret tt else ret tt) ;;;
  response <- Openshift.get (os self) pipeline_run_url true [] [] ;;
  lift (_check_response response).

(** The property [data]: always a fresh read. *)
Definition data : io json := get_info false.

Definition status_reason : io json :=
  d <- data ;;
  if negb (truthy d) then ret JNull else lift (first_condition d "reason").

Definition status_status : io json :=
  d <- data ;;
  if negb (truthy d) then ret JNull else lift (first_condition d "status").

Definition has_succeeded : io bool :=
  reason <- status_reason ;;
  data ;;;                       (* the argument of the log call *)
  ret (json_eq_str reason "Succeeded").

Definition has_not_finished : io bool :=
  status <- status_status ;;
  if json_eq_str status "Unknown"
  then reason <- status_reason ;;
       ret (negb (json_eq_str reason "PipelineRunCancelled"))
  else ret false.

Definition was_cancelled : io bool :=
  reason <- status_reason ;;
  ret (json_eq_str reason "PipelineRunCancelled").

(** [matches_state] of _any_task_run_in_state; the log call of a match
    reads [task_run['pipelineTaskName']]. *)
Definition matches_state (match_state : json -> json -> bool -> bool)
    (task_run : json) : py bool :=
  task_run_status <~ getitem task_run "status" ;;
  status <~ (cs <~ getitem task_run_status "conditions" ;;
             c <~ getfirst cs ;; getitem c "status") ;;
  reason <~ (cs <~ getitem task_run_status "conditions" ;;
             c <~ getfirst cs ;; getitem c "reason") ;;
  completion_time <~ dict_get task_run_status "completionTime" JNull ;;
  if match_state status reason
       (match completion_time with JNull => false | _ => true end)
  then _ <~ getitem task_run "pipelineTaskName" ;; Ok true
  else Ok false.

Definition any_task_run_in (match_state : json -> json -> bool -> bool)
    (d : json) : py bool :=
  task_runs <~ (st <~ getitem d "status" ;;
                trs <~ dict_get st "taskRuns" (JObj []) ;;
                dict_values trs) ;;
  py_any (matches_state match_state) task_runs.

Definition _any_task_run_in_state (match_state : json -> json -> bool -> bool)
    : io bool :=
  d <- data ;;
  lift (any_task_run_in match_state d).

Definition failed_state (status reason : json) (has_completion_time : bool) : bool :=
  andb (json_eq_str status "False")
       (andb (negb (json_eq_str reason "TaskRunCancelled")) has_completion_time).

Definition any_task_failed : io bool := _any_task_run_in_state failed_state.



(** [for _ in range(n): if self.has_not_finished(): sleep else: break],
    for any way of polling. *)
Fixpoint wait_loop (poll : io bool) (n : nat) : io unit :=
  match n with
  | O => ret tt
  | S n' =>
      unfinished <- poll ;;
      if (unfinished : bool)
      then sleep WAIT_RETRY_SECS ;;; wait_loop poll n'
      else ret tt
  end.

Definition wait_for_finish : io unit := wait_loop has_not_finished WAIT_RETRY.

(** *** get_error_message *)

Definition plugin_errors_message (plugin_errors : json) : py string :=
  if truthy plugin_errors
  then items <~ dict_items plugin_errors ;;
       Ok (fold_left
             (fun err_message pe =>
                (err_message ++ "Error in plugin " ++ fst pe ++ ": "
                 ++ py_str (snd pe) ++ ";" ++ nl)%string)
             items "")
  else Ok "".

(** The loop over [message_json], inside [try: ... except Exception]: what
    was appended before a failure stays. *)
Fixpoint task_results (task_name : json) (messages : list json)
    (err_message : string) : string :=
  match messages with
  | [] => err_message
  | message :: rest =>
      match getitem message "key" with
      | Raise _ => err_message
      | Ok k =>
          if json_eq_str k "task_result"
          then match getitem message "value" with
               | Raise _ => err_message
               | Ok v =>
                   task_results task_name rest
                     (err_message ++ "Error in " ++ py_str task_name ++ ": "
                      ++ py_str v ++ ";" ++ nl)%string
               end
          else task_results task_name rest err_message
      end
  end.

Definition on_step (task_name : json) (step : json) (err_message : string)
    : py string :=
  has_terminated <~ py_in "terminated" step ;;
  if negb has_terminated then Ok err_message else
  terminated <~ getitem step "terminated" ;;
  exit_code <~ getitem terminated "exitCode" ;;
  if json_eq_zero exit_code then Ok err_message else
  has_message <~ py_in "message" terminated ;;
  if negb has_message then Ok err_message else
  Ok (match (m <~ getitem terminated "message" ;;
             message_json <~ loads_value m ;;
             py_iter message_json) with
      | Raise _ => err_message
      | Ok messages => task_results task_name messages err_message
      end).

Definition on_task (stats : json) (err_message : string) : py string :=
  task_name <~ getitem stats "pipelineTaskName" ;;
  reason <~ first_condition stats "reason" ;;
  if json_eq_str reason "Succeeded" then Ok err_message else
  st <~ getitem stats "status" ;;
  has_steps <~ py_in "steps" st ;;
  if negb has_steps then Ok err_message else
  steps <~ (x <~ getitem st "steps" ;; py_iter x) ;;
  fold_py (on_step task_name) steps err_message.

Definition error_message_of (d : json) : py (option string) :=
  if negb (truthy d) then Ok None else
  annotations <~ (md <~ getitem d "metadata" ;; getitem md "annotations") ;;
  plugins_metadata <~ dict_get annotations "plugins-metadata" JNull ;;
  plugin_errors <~ (if truthy plugins_metadata
                    then metadata_dict <~ loads_value plugins_metadata ;;
                         dict_get metadata_dict "errors" JNull
                    else Ok JNull) ;;
  err_message <~ plugin_errors_message plugin_errors ;;
  task_runs_status <~ (st <~ getitem d "status" ;; dict_get st "taskRuns" (JObj [])) ;;
  sorted <~ get_sorted_task_runs task_runs_status ;;
  err_message <~ fold_py on_task (map snd sorted) err_message ;;
  Ok (Some (if String.eqb err_message "" then "pipeline run failed;" else err_message)).

Definition get_error_message : io (option string) :=
  d <- data ;;
  lift (error_message_of d).

(** *** get_final_platforms *)

(** The loop over [stats['status']['taskResults']]: [Some v] when it returns
    [v] from the function, [None] when it runs to its end. *)
Fixpoint platforms_result (results : list json) : py (option json) :=
  match results with
  | [] => Ok None
  | result :: rest =>
      name <~ getitem result "name" ;;
      if negb (json_eq_str name "platforms_result")
      then platforms_result rest
      else value <~ getitem result "value" ;;
           platforms <~ loads_value value ;;
           Ok (Some platforms)
  end.

(** The loop over the sorted task runs, likewise. *)
Fixpoint final_platforms (tasks : list json) : py (option json) :=
  match tasks with
  | [] => Ok None
  | stats :: rest =>
      task_name <~ getitem stats "pipelineTaskName" ;;
      if negb (json_eq_str task_name "binary-container-prebuild")
      then final_platforms rest
      else
        reason <~ first_condition stats "reason" ;;
        if negb (json_eq_str reason "Succeeded")
        then final_platforms rest
        else
          st <~ getitem stats "status" ;;
          has_results <~ py_in "taskResults" st ;;
          if negb has_results
          then final_platforms rest
          else
            results <~ (x <~ getitem st "taskResults" ;; py_iter x) ;;
            found <~ platforms_result results ;;
            match found with
            | Some platforms => Ok (Some platforms)
            | None => final_platforms rest
            end
  end.

Definition final_platforms_of (d : json) : py (option json) :=
  if negb (truthy d) then Ok None else
  task_runs_status <~ (st <~ getitem d "status" ;; dict_get st "taskRuns" (JObj [])) ;;
  sorted <~ get_sorted_task_runs task_runs_status ;;
  final_platforms (map snd sorted).

Definition get_final_platforms : io json :=
  d <- data ;;
  found <- lift (final_platforms_of d) ;;
  ret (match found with Some platforms => platforms | None => JNull end).

(** *** remove_pipeline_run, and the properties [annotations] and
    [pipeline_results] *)

Definition remove_pipeline_run : io json :=
  response <- Openshift.delete (os self)
                (Openshift.build_url (os self) api_path api_version
                   ("pipelineruns/" ++ pipeline_run_name self)%string true [])
                true
                [("Content-Type", "application/json"); ("Accept", "application/json")]
                [] ;;
  lift (body_json response).

Definition annotations : io json :=
  d <- data ;;
  if negb (truthy d) then ret JNull
  else lift (md <~ getitem d "metadata" ;; getitem md "annotations").

Definition pipeline_results : io json :=
  d <- data ;;
  if negb (truthy d) then ret (JArr [])
  else lift (st <~ getitem d "status" ;; dict_get st "pipelineResults" (JArr [])).

(** *** wait_for_taskruns *)

(** The loop over [task_runs.items()]: a name not seen before is added to
    [watched_task_runs], then its pair is appended. *)
Fixpoint new_task_runs (items : list (string * json)) (watched_task_runs : list string)
    (current_task_runs : list (json * string))
    : py (list string * list (json * string)) :=
  match items with
  | [] => Ok (watched_task_runs, current_task_runs)
  | (task_run_name, task_run_data) :: rest =>
      if existsb (String.eqb task_run_name) watched_task_runs
      then new_task_runs rest watched_task_runs current_task_runs
      else
        pipeline_task_name <~ getitem task_run_data "pipelineTaskName" ;;
        new_task_runs rest (task_run_name :: watched_task_runs)
          (current_task_runs ++ [(pipeline_task_name, task_run_name)])
  end.

(** One turn of the loop of wait_for_taskruns, on [watched_task_runs]: the
    batch it yields, if it gets that far, and how it leaves. *)
Definition taskruns_turn (watched_task_runs : list string) (pipeline_run : json)
    : list (list (json * string)) * py (flow (list string) unit) :=
  match (st <~ getitem pipeline_run "status" ;; getitem st "taskRuns") with
  | Raise (KeyError _) => ([], Ok (Next watched_task_runs))
  | Raise e => ([], Raise e)
  | Ok task_runs =>
      match (items <~ dict_items task_runs ;;
             new_task_runs items watched_task_runs []) with
      | Raise e => ([], Raise e)
      | Ok (watched, current_task_runs) =>
          ([current_task_runs],
           match first_condition pipeline_run "status" with
           | Raise (KeyError _) => Ok (Return tt)
           | Raise e => Raise e
           | Ok status =>
               if orb (json_eq_str status "True") (json_eq_str status "False")
               then Ok (Return tt)
               else Ok (Next watched)
           end)
      end
  end.

Definition wait_for_taskruns : gen (list (json * string)) unit :=
  fun w =>
    match Openshift.watch_resource (os self) api_path api_version "pipelineruns"
            (pipeline_run_name self) []
            (fun watched pipeline_run w' => (taskruns_turn watched pipeline_run, w'))
            [] w with
    | (ys, Ok _, w') => (ys, Ok tt, w')
    | (ys, Raise e, w') => (ys, Raise e, w')
    end.

End Methods.
End PipelineRun.

(** ** class Pod *)

(** [int(x)] of a float: the integer part, towards zero; a NaN and an
    infinity have none. *)
Definition py_int (x : float) : py Z :=
  match Prim2SF x with
  | S754_zero _ => Ok 0
  | S754_infinity _ => Raise OverflowError
  | S754_nan => Raise ValueError
  | S754_finite negative m e =>
      let magnitude := Z.shiftl (Zpos m) e in
      Ok (if negative then - magnitude else magnitude)
  end.

(** What [Pod.get_logs] hands back: a generator (here run to its end), the
    text of the pod's log, or a dict from container to text. *)
Inductive logs : Type :=
| LogStream
| LogText (text : string)
| LogDict (by_container : list (string * string)).

Module Pod.

Record t : Type := Make {
  os : Openshift.t;
  pod_name : string;
  containers : option (list string)    (* None unless given *)
}.

Definition api_version : string := "v1".
Definition api_path : string := "api".

(** If connection is closed within this many seconds, give up. *)
Definition min_idle_timeout : float := 60.

(** The [except] clauses of _stream_logs: is the exception passed over? *)
Definition swallowed (e : exn) : bool :=
  match e with
  | OsbsException _ c => Openshift.transport c
  | RequestsConnectionError => true
  | RequestsTimeout => true
  | _ => false
  end.

Section Methods.
Context {L : Externals}.
Variable self : t.

Definition log_url (kwargs : list (string * json)) : url :=
  Openshift.build_url (os self) api_path api_version
    ("pods/" ++ pod_name self ++ "/log")%string true kwargs.

(** One turn of the loop of wait_for_start. *)
Definition started (_ : unit) (pod : json) : py (flow unit json) :=
  match (st <~ getitem pod "status" ;; getitem st "phase") with
  | Raise (KeyError _) => Ok (Next tt)
  | Raise e => Raise e
  | Ok status =>
      if orb (json_eq_str status "Running")
             (orb (json_eq_str status "Succeeded") (json_eq_str status "Failed"))
      then Ok (Return pod)
      else Ok (Next tt)
  end.

Definition wait_for_start : io json :=
  r <- silent (Openshift.watch_resource (os self) api_path api_version "pods"
                 (pod_name self) [] (pure_body started) tt) ;;
  ret (match r with Return pod => pod | Next _ => JNull end).

Definition _get_logs_no_container : io string :=
  r <- Openshift.get (os self) (log_url []) true [] [] ;;
  check_response r ;;;
  lift (content_utf8 r).

Fixpoint logs_of (cs : list string) (logs : list (string * string))
    : io (list (string * string)) :=
  match cs with
  | [] => ret logs
  | container :: rest =>
      r <- Openshift.get (os self) (log_url [("container", JStr container)]) true [] [] ;;
      check_response r ;;;
      text <- lift (content_utf8 r) ;;
      logs_of rest (dict_set container text logs)
  end.

Definition _get_logs : io (list (string * string)) :=
  match containers self with
  | None => raise (TypeError "'NoneType' object is not iterable")
  | Some cs => logs_of cs []
  end.

(** [for line in response.iter_lines(): connected = time.time(); yield
    line.decode('utf-8')]: the lines yielded, the last value of [connected]
    and the exception that ended the loop, if one did. *)
Fixpoint read_lines (ls : list line) (fin : option exn) (connected : float) (w : world)
    : list string * (float * option exn) * world :=
  match ls with
  | [] => ([], (connected, fin), w)
  | l :: rest =>
      let now := reading w in
      match utf8 l with
      | Raise e => ([], (now, Some e), tick w)
      | Ok text =>
          match read_lines rest fin now (tick w) with
          | (ys, r, w2) => (text :: ys, r, w2)
          end
      end
  end.

(** After the [try] statement: finish, or go round again asking for the
    logs of the last [int(idle - 1)] seconds. *)
Definition after_close (kwargs : list (string * json)) (connected : float)
    : io (flow (list (string * json)) unit) :=
  now <- time_time ;;
  let idle := (now - connected)%float in
  if (idle <? min_idle_timeout)%float
  then ret (Return tt)
  else
    since <- lift (py_int (idle - 1)%float) ;;
    ret (Next (dict_set "sinceSeconds" (JNum since) kwargs)).

Definition closed (kwargs : list (string * json)) (connected : float)
    (ended : option exn) (ys : list string) (w : world)
    : list string * py (flow (list (string * json)) unit) * world :=
  match ended with
  | Some e =>
      if swallowed e
      then match after_close kwargs connected w with (r, w') => (ys, r, w') end
      else (ys, Raise e, w)
  | None => match after_close kwargs connected w with (r, w') => (ys, r, w') end
  end.

(** [response = self.os.get(url, stream=True, headers={'Connection':
    'close'}); check_response(response)] *)
Definition log_response (kwargs : list (string * json)) : io response :=
  response <- Openshift.get (os self) (log_url kwargs) true
                [("Connection", "close")] [("stream", JBool true)] ;;
  check_response response ;;;
  ret response.

(** The [try] block of one turn of [while True] in _stream_logs, with the
    reading of the clock that precedes it: the lines yielded, the last value
    of [connected], and the exception that ended the block, if one did. *)
Definition connect (kwargs : list (string * json)) (w : world)
    : list string * (float * option exn) * world :=
  let connected := reading w in
  match log_response kwargs (tick w) with
  | (Raise e, w1) => ([], (connected, Some e), w1)
  | (Ok response, w1) =>
      read_lines (iter_lines response) (iter_end response) connected w1
  end.

(** One turn of [while True] in _stream_logs. *)
Definition stream_once (kwargs : list (string * json))
    : gen string (flow (list (string * json)) unit) :=
  fun w =>
    match connect kwargs w with
    | (ys, (connected, ended), w2) => closed kwargs connected ended ys w2
    end.

(** [while True], for at most [fuel] turns: [None] when the turns are used
    up before the generator has returned. *)
Fixpoint stream_loop (fuel : nat) (kwargs : list (string * json))
    : gen string (option unit) :=
  fun w =>
    match fuel with
    | O => ([], Ok None, w)
    | S fuel' =>
        match stream_once kwargs w with
        | (ys, Raise e, w1) => (ys, Raise e, w1)
        | (ys, Ok (Return _), w1) => (ys, Ok (Some tt), w1)
        | (ys, Ok (Next kwargs'), w1) =>
            match stream_loop fuel' kwargs' w1 with
            | (ys', r, w2) => (ys ++ ys', r, w2)
            end
        end
    end.

Definition _stream_logs (fuel : nat) (container : string) : gen string (option unit) :=
  stream_loop fuel
    (if negb (String.eqb container "")
     then [("follow", JBool true); ("container", JStr container)]
     else [("follow", JBool true)]).

(** [for container in self.containers: yield from self._stream_logs(container)] *)
Fixpoint each_container (fuel : nat) (cs : list string) : gen string (option unit) :=
  fun w =>
    match cs with
    | [] => ([], Ok (Some tt), w)
    | container :: rest =>
        match _stream_logs fuel container w with
        | (ys, Ok (Some _), w1) =>
            match each_container fuel rest w1 with
            | (ys', r, w2) => (ys ++ ys', r, w2)
            end
        | other => other
        end
    end.

Definition _get_logs_stream (fuel : nat) : gen string (option unit) :=
  fun w =>
    match wait_for_start w with
    | (Raise e, w1) => ([], Raise e, w1)
    | (Ok _, w1) =>
        match containers self with
        | None => ([], Raise (TypeError "'NoneType' object is not iterable"), w1)
        | Some cs => each_container fuel cs w1
        end
    end.

Definition get_logs (fuel : nat) (follow wait : bool) : gen string (option logs) :=
  fun w =>
    if orb follow wait
    then match _get_logs_stream fuel w with
         | (ys, Ok (Some _), w') => (ys, Ok (Some LogStream), w')
         | (ys, Ok None, w') => (ys, Ok None, w')
         | (ys, Raise e, w') => (ys, Raise e, w')
         end
    else
      match containers self with
      | Some (_ :: _) =>
          match _get_logs w with
          | (Ok d, w') => ([], Ok (Some (LogDict d)), w')
          | (Raise e, w') => ([], Raise e, w')
          end
      | _ =>
          match _get_logs_no_container w with
          | (Ok text, w') => ([], Ok (Some (LogText text)), w')
          | (Raise e, w') => ([], Raise e, w')
          end
      end.

End Methods.
End Pod.

(** ** class TaskRun *)

Module TaskRun.

Record t : Type := Make {
  os : Openshift.t;
  task_run_name : string
}.

Definition api_path : string := "apis".
Definition api_version : string := API_VERSION.

Section Methods.
Context {L : Externals}.
Variable self : t.

(** One turn of the loop of wait_for_start. *)
Definition started (_ : unit) (task_run : json) : py (flow unit json) :=
  match (status <~ first_condition task_run "status" ;;
         reason <~ first_condition task_run "reason" ;;
         Ok (status, reason)) with
  | Raise (KeyError _) => Ok (Next tt)
  | Raise e => Raise e
  | Ok (status, reason) =>
      if orb (orb (json_eq_str status "True") (json_eq_str status "False"))
             (andb (json_eq_str status "Unknown") (json_eq_str reason "Running"))
      then Ok (Return task_run)
      else Ok (Next tt)
  end.

Definition wait_for_start : io json :=
  r <- silent (Openshift.watch_resource (os self) api_path api_version "taskruns"
                 (task_run_name self) [] (pure_body started) tt) ;;
  ret (match r with Return task_run => task_run | Next _ => JNull end).

Definition get_info (wait : bool) : io json :=
  (if wait then wait_for_start ;;; ret tt else ret tt) ;;;
  r <- Openshift.get (os self)
         (Openshift.build_url (os self) api_path api_version
            ("taskruns/" ++ task_run_name self)%string true [])
         true [] [] ;;
  lift (body_json r).

End Methods.
End TaskRun.


(** * Vocabulary of the properties *)

(** ** Watch lines *)


Definition container (j : json) : bool :=
  match j with
  | JObj _ | JArr _ | JStr _ => true
  | _ => false
  end.



(** An upstream-reported error is the only exception that counts as a bad
    response. *)
Definition upstream_error (e : exn) : bool :=
  match e with
  | OsbsResponseException _ => true
  | _ => false
  end.

(** A connection drop or a timeout, raised by requests or wrapped by the
    session. *)
Definition transport_failure (e : exn) : bool :=
  match e with
  | OsbsException _ c => Openshift.transport c
  | RequestsConnectionError => true
  | RequestsTimeout => true
  | _ => false
  end.

(** ** Task-run states *)

(** The task runs of a snapshot, as _any_task_run_in_state reads them. *)
Definition task_runs_of (d : json) : py (list json) :=
  st <~ getitem d "status" ;;
  trs <~ dict_get st "taskRuns" (JObj []) ;;
  dict_values trs.

(** The task run carries a first condition with this status and this reason,
    this completionTime (null when it has none) and a pipelineTaskName. *)
Definition task_run_reads (tr status reason completion : json) : Prop :=
  exists st cs c,
    getitem tr "status" = Ok st /\
    getitem st "conditions" = Ok cs /\
    getfirst cs = Ok c /\
    getitem c "status" = Ok status /\
    getitem c "reason" = Ok reason /\
    dict_get st "completionTime" JNull = Ok completion /\
    exists name, getitem tr "pipelineTaskName" = Ok name.


Definition failed_task_run (tr : json) : Prop :=
  exists status reason completion,
    task_run_reads tr status reason completion /\
    status = JStr "False" /\ reason <> JStr "TaskRunCancelled" /\ completion <> JNull.

(** ** Log streaming *)







(** ** Consumers of the watch *)

(** The turns of a consumer's loop over the snapshots it is given, one after
    the other, for a loop body that only computes: what is yielded, and how
    the loop ends ([Next s] when the snapshots run out). *)
Fixpoint turns_over {Y S R} (turn : S -> json -> list Y * py (flow S R))
    (snaps : list json) (s : S) : list Y * py (flow S R) :=
  match snaps with
  | [] => ([], Ok (Next s))
  | snapshot :: rest =>
      match turn s snapshot with
      | (ys, Ok (Next s')) =>
          match turns_over turn rest s' with
          | (ys', r) => (ys ++ ys', r)
          end
      | (ys, r) => (ys, r)
      end
  end.

(** The pipeline run's own first condition is resolved. *)
Definition terminal (pipeline_run : json) : Prop :=
  first_condition pipeline_run "status" = Ok (JStr "True") \/
  first_condition pipeline_run "status" = Ok (JStr "False").

(** The task-run names of the batches, in the order they were yielded. *)
Definition reported (batches : list (list (json * string))) : list string :=
  map snd (List.concat batches).

(** How a connection attempt ends for a consumer that stayed to the end of
    it, with its loop's variables at [s], given how it ends for the
    generator alone. *)
Definition handed_on {S R} (t : Openshift.tried unit Empty_set) (s : S)
    : Openshift.tried S R :=
  match t with
  | Openshift.Drained _ => Openshift.Drained s
  | Openshift.Broke _ e => Openshift.Broke s e
  | Openshift.Abandoned (Ok r) => match r with end
  | Openshift.Abandoned (Raise e) => Openshift.Abandoned (Raise e)
  end.

(** The same for the whole watch. *)
Definition handed_back {S R} (r : py (flow unit Empty_set)) (s : S) : py (flow S R) :=
  match r with
  | Ok _ => Ok (Next s)
  | Raise e => Raise e
  end.

(** The consumer's loop left at one of the snapshots [delivered]: the turns
    over the snapshots before it went on, the turn on that snapshot left the
    loop with [r], and the world [w'] is the one in which the re-fetch that
    returned that snapshot ended. *)
Definition left_at {L : Externals} {Y S R} (turn : S -> json -> list Y * py (flow S R))
    (self : Openshift.t) (get_url : url) (delivered : list json) (s : S)
    (r : py (flow S R)) (w' : world) : Prop :=
  exists before snapshot after s1 w,
    delivered = before ++ snapshot :: after
    /\ snd (turns_over turn before s) = Ok (Next s1)
    /\ snd (turn s1 snapshot) = r
    /\ Openshift.fresh_copy self get_url w = (Ok snapshot, w').

(** A consumer that only computes and the generator alone, run in the same
    world: what the consumer yields is what its turns give over the
    snapshots the generator delivers; if its loop stays to the end it ends
    as the generator does, [ended], in the same world [w0]; if it leaves at a
    snapshot, the world is the one that snapshot's re-fetch left. *)
Definition follows {L : Externals} {Y S R A} (turn : S -> json -> list Y * py (flow S R))
    (self : Openshift.t) (get_url : url) (delivered : list json) (s : S)
    (ended : S -> A) (left : py R -> A) (w0 : world)
    (run : list Y * A * world) : Prop :=
  fst (fst run) = fst (turns_over turn delivered s)
  /\ match snd (turns_over turn delivered s) with
     | Ok (Next s') => snd (fst run) = ended s' /\ snd run = w0
     | Ok (Return r) =>
         snd (fst run) = left (Ok r)
         /\ left_at turn self get_url delivered s (Ok (Return r)) (snd run)
     | Raise e =>
         snd (fst run) = left (Raise e)
         /\ left_at turn self get_url delivered s (Raise e) (snd run)
     end.

(** How the watch ends for a consumer that left its loop. *)
Definition left_with {S R} (r : py R) : py (flow S R) :=
  match r with
  | Ok x => Ok (Return x)
  | Raise e => Raise e
  end.

(** The snapshot has a status.taskRuns entry. *)
Definition has_task_runs (pipeline_run : json) : Prop :=
  exists task_runs,
    (st <~ getitem pipeline_run "status" ;; getitem st "taskRuns") = Ok task_runs.

(** The snapshot has no status.taskRuns entry: the lookup raises KeyError. *)
Definition no_task_runs (pipeline_run : json) : Prop :=
  exists key,
    (st <~ getitem pipeline_run "status" ;; getitem st "taskRuns") = Raise (KeyError key).

(** The names of the task runs a snapshot lists (none when it has no
    status.taskRuns dict). *)
Definition task_run_names (pipeline_run : json) : list string :=
  match (st <~ getitem pipeline_run "status" ;;
         trs <~ getitem st "taskRuns" ;;
         dict_items trs) with
  | Ok items => map fst items
  | Raise _ => []
  end.

(** ** Starting a run *)

(** [input_data.get('metadata', {}).get('name')] *)
Definition manifest_name (input_data : json) : py json :=
  md <~ dict_get input_data "metadata" (JObj []) ;;
  dict_get md "name" JNull.

(** ** Error messages *)




(** [data['status'].get('taskRuns', {})] *)
Definition task_runs_status (d : json) : py json :=
  st <~ getitem d "status" ;;
  dict_get st "taskRuns" (JObj []).

(** The task run is the prebuild task, succeeded, and has a task result
    named platforms_result whose value decodes to [platforms]. *)
Definition gives_platforms {L : Externals} (stats platforms : json) : Prop :=
  getitem stats "pipelineTaskName" = Ok (JStr "binary-container-prebuild") /\
  first_condition stats "reason" = Ok (JStr "Succeeded") /\
  exists st results result value,
    getitem stats "status" = Ok st /\
    (x <~ getitem st "taskResults" ;; py_iter x) = Ok results /\
    In result results /\
    getitem result "name" = Ok (JStr "platforms_result") /\
    getitem result "value" = Ok value /\
    loads_value value = Ok platforms.

(** No task run of the list is named for the prebuild task. *)
Definition no_prebuild (tasks : list json) : Prop :=
  Forall (fun stats => exists name,
            getitem stats "pipelineTaskName" = Ok name /\
            name <> JStr "binary-container-prebuild") tasks.

(** ** Waiting for the end of a run *)

(** The polls a waiting loop makes from [w], with their outcomes: a poll
    that answers "not finished" is followed by a sleep of WAIT_RETRY_SECS
    seconds and then by the rest; a poll that answers "finished", or
    raises, is the last one. *)
Inductive polled (poll : io bool) : world -> list (py bool) -> world -> Prop :=
| polled_none w : polled poll w [] w
| polled_unfinished w w1 outs w2 :
    poll w = (Ok true, w1) ->
    polled poll (snd (sleep WAIT_RETRY_SECS w1)) outs w2 ->
    polled poll w (Ok true :: outs) w2
| polled_last w r w1 :
    poll w = (r, w1) ->
    r <> Ok true ->
    polled poll w [r] w1.

(** What the loop returns after these polls: the exception of the last
    poll if it raised, and nothing otherwise. *)
Definition waited (outs : list (py bool)) : py unit :=
  match last outs (Ok false) with
  | Raise e => Raise e
  | Ok _ => Ok tt
  end.

(** ** Requests *)

(** Exactly one of the client certificate and its key was given. *)
Definition half_certificate (self : Openshift.t) : bool :=
  xorb (given (Openshift.client_cert self)) (given (Openshift.client_key self)).

(** The request belongs to the token exchange. *)
Definition exchange_request (self : Openshift.t) (rq : request) : Prop :=
  rq_verb rq = GET /\ rq_url rq = Openshift.oauth_url self.

(** The request is a GET of the pod's log, following, for this container
    when one is named. *)
Definition log_request (self : Pod.t) (container : string) (rq : request) : Prop :=
  rq_verb rq = GET /\
  base (rq_url rq) = base (Pod.log_url self []) /\
  path (rq_url rq) = path (Pod.log_url self []) /\
  assoc "follow" (query (rq_url rq)) = Some (JBool true) /\
  (container <> "" -> assoc "container" (query (rq_url rq)) = Some (JStr container)).

(** The request is a GET of the watch url or of the url of the object. *)
Definition watch_request (watch_url get_url : url) (rq : request) : Prop :=
  rq_verb rq = GET /\ (rq_url rq = watch_url \/ rq_url rq = get_url).

(** The world [w'] has the requests of [w], then requests that all satisfy
    [P]. *)
Definition sent_only (P : request -> Prop) (w w' : world) : Prop :=
  exists added, sent w' = sent w ++ added /\ Forall P added.

Definition watch_allowed (self : Openshift.t) (watch_url get_url : url) (rq : request)
    : Prop :=
  exchange_request self rq \/ watch_request watch_url get_url rq.

Definition log_allowed (self : Pod.t) (container : string) (rq : request) : Prop :=
  exchange_request (Pod.os self) rq \/ log_request self container rq.

(** The arguments of the log request keep [follow] and [container]. *)
Definition log_kwargs (container : string) (kwargs : list (string * json)) : Prop :=
  assoc "follow" kwargs = Some (JBool true) /\
  (container <> "" -> assoc "container" kwargs = Some (JStr container)).

(** ** Waiting for a start *)

(** The run's first condition is resolved, or says that it is running. *)
Definition run_started (run : json) : Prop :=
  exists status reason,
    first_condition run "status" = Ok status /\
    first_condition run "reason" = Ok reason /\
    (status = JStr "True" \/ status = JStr "False" \/
     (status = JStr "Unknown" /\ reason = JStr "Running")).

(** The pod's phase is Running, Succeeded or Failed. *)
Definition pod_started (pod : json) : Prop :=
  exists phase,
    (st <~ getitem pod "status" ;; getitem st "phase") = Ok phase /\
    (phase = JStr "Running" \/ phase = JStr "Succeeded" \/ phase = JStr "Failed").

(** ** Order of the task runs *)

(** The task run's start time reads as [k]. *)
Definition starts_at {L : Externals} (k : Z) (x : string * json) : bool :=
  match start_time x with
  | Ok k' => Z.eqb k' k
  | Raise _ => false
  end.

Definition same_key {A} (k : Z) (kx : Z * A) : bool := Z.eqb (fst kx) k.

Definition key_le {A} (a b : Z * A) : Prop := fst a <= fst b.

(** * Sample runs *)

Fixpoint after_hash (s : string) : string :=
  match s with
  | EmptyString => ""
  | String c rest => if Ascii.eqb c "#" then rest else after_hash rest
  end.

Fixpoint split_on (sep : ascii) (s : string) : list string :=
  match s with
  | EmptyString => [""]
  | String c rest =>
      if Ascii.eqb c sep then "" :: split_on sep rest
      else match split_on sep rest with
           | [] => [String c ""]
           | h :: t => String c h :: t
           end
  end.

Fixpoint cut (sep : ascii) (s : string) : string * option string :=
  match s with
  | EmptyString => ("", None)
  | String c rest =>
      if Ascii.eqb c sep then ("", Some rest)
      else match cut sep rest with (a, b) => (String c a, b) end
  end.

(** Library functions for the sample runs: the fragment is what follows the
    first '#', and its fields are split at '&' and '=' (blank values are
    dropped, as parse_qs does). *)
Definition sample_lib : Externals := {|
  json_loads := fun _ => Raise ValueError;
  json_dumps := fun _ => "{}";
  py_str := fun j => match j with JStr s => s | _ => "?" end;
  strptime_timestamp := fun _ => Ok 0;
  urlparse_fragment := after_hash;
  parse_qs := fun fragment =>
    flat_map (fun field =>
                match cut "=" field with
                | (k, Some v) => if String.eqb v "" then [] else [(k, [v])]
                | (_, None) => []
                end)
             (split_on "&" fragment);
  kerberos_ccache_init := fun _ _ _ => Ok tt
|}.

(** A client that sends no credentials. *)
Definition anon : Openshift.t :=
  Openshift.Make "https://cluster.example/" "https://cluster.example/oauth/authorize"
    "default" true false false None None None None None None None None.

Definition world_of (rs : list (py response)) : world :=
  World rs [] None [] (fun _ => 0%float) 0.

Definition json_reply (j : json) : py response :=
  Ok (Response 200 [] "" (Ok "") (Ok j) [] None).

Definition error_reply (code : Z) : py response :=
  Ok (Response code [] "" (Ok "") (Raise (OsbsResponseException code)) [] None).

Definition watch_reply (ls : list line) : py response :=
  Ok (Response 200 [] "" (Ok "") (Ok JNull) ls None).

Definition event_line : line :=
  Line "{...}" (Ok (JObj [("type", JStr "MODIFIED"); ("object", JObj [])])) (Ok "{...}").



Definition running_snapshot : json :=
  JObj [("metadata", JObj [("name", JStr "build-1"); ("annotations", JObj [])]);
        ("status", JObj [("conditions",
                          JArr [JObj [("status", JStr "Unknown");
                                      ("reason", JStr "Running")]])])].

Definition task_run (task status reason : string) (completion : option string) : json :=
  JObj [("pipelineTaskName", JStr task);
        ("status",
         JObj ([("conditions", JArr [JObj [("status", JStr status);
                                           ("reason", JStr reason)]]);
                ("startTime", JStr "2022-03-01T10:00:00Z")]
               ++ match completion with
                  | Some t => [("completionTime", JStr t)]
                  | None => []
                  end))].

Definition snapshot_of (status reason : string) (task_runs : option (list (string * json)))
    : json :=
  JObj [("metadata", JObj [("name", JStr "build-1"); ("annotations", JObj [])]);
        ("status",
         JObj ([("conditions", JArr [JObj [("status", JStr status);
                                           ("reason", JStr reason)]])]
               ++ match task_runs with
                  | Some trs => [("taskRuns", JObj trs)]
                  | None => []
                  end))].

Definition manifest (name : string) : json :=
  JObj [("apiVersion", JStr API_VERSION); ("kind", JStr "PipelineRun");
        ("metadata", JObj [("name", JStr name)]); ("spec", JObj [])].

Definition sample_run : PipelineRun.t := PipelineRun.Make anon "build-1" (manifest "build-1").

(** A run that failed before any task run was created, and a later state
    of a failed run with one task run. *)
Definition failed_early : json := snapshot_of "False" "CouldntGetPipeline" None.

Definition failed_late : json :=
  snapshot_of "False" "Failed"
    (Some [("build-1-clone", task_run "clone" "False" "Failed" (Some "2022-03-01T10:05:00Z"))]).

(** The controller for run "build-1", given the manifest of "build-2". *)
Definition misnamed_run : PipelineRun.t :=
  PipelineRun.Make anon "build-1" (manifest "build-2").

(** A client told to authenticate, with no token yet. *)
Definition with_auth : Openshift.t :=
  Openshift.Make "https://cluster.example/" "https://cluster.example/oauth/authorize"
    "default" true true false None None None None None None None None.

Definition redirect_to (location : string) : py response :=
  Ok (Response 302 [("Location", location)] "" (Ok "") (Raise ValueError) [] None).

Definition no_redirect : py response :=
  Ok (Response 401 [] "" (Ok "") (Raise (OsbsResponseException 401)) [] None).


(** A run with the same conditions, as the cluster gives it when it has no
    annotations and no task runs. *)
Definition bare_snapshot : json :=
  JObj [("metadata", JObj [("name", JStr "build-1")]);
        ("status", JObj [("conditions",
                          JArr [JObj [("status", JStr "True");
                                      ("reason", JStr "Succeeded")]])])].

(** A task run that was just created: its status has no conditions yet. *)
Definition created_task_run : json :=
  JObj [("pipelineTaskName", JStr "fetch");
        ("status", JObj [("podName", JStr "build-1-fetch-pod")])].

(** A run with that task run, listed before one that failed. *)
Definition created_and_failed : json :=
  snapshot_of "Unknown" "Running"
    (Some [("build-1-fetch", created_task_run);
           ("build-1-clone",
            task_run "clone" "False" "Failed" (Some "2022-03-01T10:05:00Z"))]).

Definition sample_pod : Pod.t := Pod.Make anon "build-1-clone-pod" (Some ["step-clone"]).

(** The same pod, constructed without its containers. *)
Definition bare_pod : Pod.t := Pod.Make anon "build-1-clone-pod" None.

Definition log_reply (ls : list string) (text : string) : py response :=
  Ok (Response 200 [] text (Ok text) (Raise ValueError)
        (map (fun s => Line s (Raise ValueError) (Ok s)) ls) None).

(** A clock that gives these readings, and then stays at the last. *)
Definition readings (l : list float) (n : nat) : float := nth n l (last l 0%float).

(** A connection opened at 0.1 s sees a line at 0.2 s and another at 30.3 s,
    and is closed at 91.3 s. *)
Definition idle_world : world :=
  World [log_reply ["cloning"; "done"] "cloning"] [] None []
        (readings [0.1; 0.2; 30.3; 91.3]%float) 0.

(** A connection opened at [opened] that brings nothing and is closed at
    [closed]. *)
Definition silent_world (opened closed : float) : world :=
  World [log_reply [] ""] [] None [] (readings [opened; closed]) 0.

Definition pod_running : json := JObj [("status", JObj [("phase", JStr "Running")])].



Definition token_location : string :=
  "https://cluster.example/oauth/token/implicit#access_token=s3cret&expires_in=86400".

(** A conversation that starts with the token exchange. *)
Definition exchange_world : world :=
  world_of [redirect_to token_location; json_reply running_snapshot].

(** Library functions that read two start times. *)
Definition timed_lib : Externals := {|
  json_loads := json_loads (Externals := sample_lib);
  json_dumps := json_dumps (Externals := sample_lib);
  py_str := py_str (Externals := sample_lib);
  strptime_timestamp := fun s =>
    if String.eqb s "2022-03-01T10:00:00Z" then Ok 1646128800
    else if String.eqb s "2022-03-01T10:05:00Z" then Ok 1646129100
    else Raise ValueError;
  urlparse_fragment := urlparse_fragment (Externals := sample_lib);
  parse_qs := parse_qs (Externals := sample_lib);
  kerberos_ccache_init := kerberos_ccache_init (Externals := sample_lib)
|}.

Definition started_at (task time : string) : json :=
  JObj [("pipelineTaskName", JStr task);
        ("status", JObj [("conditions", JArr [JObj [("status", JStr "True");
                                                    ("reason", JStr "Succeeded")]]);
                         ("startTime", JStr time)])].

Definition quote : string := String (ascii_of_nat 34) "".

(** Library functions that decode one list of platforms. *)
Definition platforms_lib : Externals := {|
  json_loads := fun s =>
    if String.eqb s ("[" ++ quote ++ "x86_64" ++ quote ++ "]")%string
    then Ok (JArr [JStr "x86_64"])
    else Raise ValueError;
  json_dumps := json_dumps (Externals := sample_lib);
  py_str := py_str (Externals := sample_lib);
  strptime_timestamp := strptime_timestamp (Externals := sample_lib);
  urlparse_fragment := urlparse_fragment (Externals := sample_lib);
  parse_qs := parse_qs (Externals := sample_lib);
  kerberos_ccache_init := kerberos_ccache_init (Externals := sample_lib)
|}.

Definition prebuild_task : json :=
  JObj [("pipelineTaskName", JStr "binary-container-prebuild");
        ("status",
         JObj [("conditions", JArr [JObj [("status", JStr "True");
                                          ("reason", JStr "Succeeded")]]);
               ("startTime", JStr "2022-03-01T10:00:00Z");
               ("taskResults",
                JArr [JObj [("name", JStr "platforms_result");
                            ("value",
                             JStr ("[" ++ quote ++ "x86_64" ++ quote ++ "]")%string)]])])].

Definition prebuilt_snapshot : json :=
  snapshot_of "Unknown" "Running" (Some [("build-1-prebuild", prebuild_task)]).

Definition sample_task_run : TaskRun.t := TaskRun.Make anon "build-1-clone".

(** * Properties *)

Lemma json_eq_str_true (j : json) (s : string) :
  json_eq_str j s = true <-> j = JStr s.
Proof.
  destruct j; simpl; split; intro H; try discriminate.
  - apply String.eqb_eq in H. now subst.
  - injection H as ->. apply String.eqb_refl.
Qed.




(** ** What a request leaves alone

    A request changes the world by its session calls and by storing the
    token: whatever those two leave alone, it leaves alone. *)

Section Keeps.
Context {L : Externals} {A : Type}.
Variable f : world -> A.
Hypothesis f_session : forall rq w, f (snd (session rq w)) = f w.
Hypothesis f_set_token : forall t w, f (snd (set_token t w)) = f w.
Variable self : Openshift.t.




End Keeps.


(** ** The watch engine *)

Section WatchEngine.
Context {L : Externals}.
Variable self : Openshift.t.
Variables watch_url get_url : url.




End WatchEngine.

Lemma check_response_ok (r : response) (w : world) :
  status_code r = 200 \/ status_code r = 201 -> check_response r w = (Ok tt, w).
Proof.
  unfold check_response. intros [-> | ->]; reflexivity.
Qed.

Lemma check_response_raises (r : response) (w : world) (e : exn) (w' : world) :
  check_response r w = (Raise e, w') ->
  e = OsbsResponseException (status_code r) /\ w' = w.
Proof.
  unfold check_response, ret, raise.
  destruct (_ || _)%bool; intro H; inversion H; auto.
Qed.




(** ** Bad responses and reconnects *)

Section BadResponses.
Context {L : Externals} {Y S R : Type}.
Variable self : Openshift.t.
Variable body : S -> json -> gen Y (flow S R).
Variables watch_url get_url : url.

(** A transport failure leaves the counter as it is and is never raised
    again. *)
Lemma transport_failure_uncounted (bad_responses : nat) (e : exn) :
  transport_failure e = true ->
  Openshift.on_exception bad_responses e = (bad_responses, None).
Proof.
  destruct e; simpl; try discriminate; try reflexivity.
  now intros ->.
Qed.

(** An upstream error adds one to the counter, and is raised again exactly
    when the counter then exceeds MAX_BAD_RESPONSES. *)
Lemma upstream_error_counted (bad_responses : nat) (e : exn) :
  upstream_error e = true ->
  Openshift.on_exception bad_responses e
  = (Datatypes.S bad_responses,
     if Nat.ltb MAX_BAD_RESPONSES (Datatypes.S bad_responses) then Some e else None).
Proof.
  destruct e; simpl; try discriminate; reflexivity.
Qed.

(** Only an upstream error moves the counter. *)
Lemma counter_moves_on_upstream_error_only (bad_responses : nat) (e : exn) :
  upstream_error e = false ->
  fst (Openshift.on_exception bad_responses e) = bad_responses.
Proof.
  destruct e; simpl; try discriminate; try reflexivity.
  all: intros _; now destruct (Openshift.transport why).
Qed.

(** What on_exception raises again is the exception it was given. *)
Lemma on_exception_same (bad_responses : nat) (e e' : exn) (bad : nat) :
  Openshift.on_exception bad_responses e = (bad, Some e') -> e' = e.
Proof.
  destruct e; simpl; intro H; try (injection H as _ <-; reflexivity).
  - destruct (Nat.ltb _ _); [injection H as _ <-; reflexivity | discriminate].
  - destruct (Openshift.transport why); [discriminate | injection H as _ <-; reflexivity].
  - discriminate.
  - discriminate.
Qed.

(** After a transport failure the loop sleeps and connects again, with the
    counter unchanged, as long as attempts remain. *)
Lemma watch_loop_reconnects (n bad_responses : nat) (s s' : S) (w w1 : world)
    (ys : list Y) (e : exn) :
  Openshift.attempt self body watch_url get_url s w = (ys, Openshift.Broke s' e, w1) ->
  transport_failure e = true ->
  Openshift.watch_loop self body watch_url get_url (Datatypes.S n) bad_responses s w
  = match Openshift.watch_loop self body watch_url get_url n bad_responses s'
            (snd (sleep WATCH_RETRY_SECS w1)) with
    | (ys', r, w2) => (ys ++ ys', r, w2)
    end.
Proof.
  intros Hatt He. cbn [Openshift.watch_loop]. rewrite Hatt.
  now rewrite (transport_failure_uncounted _ _ He).
Qed.

(** After an upstream error within the tolerance the loop sleeps and
    connects again, with the counter one higher. *)
Lemma watch_loop_counts (n bad_responses : nat) (s s' : S) (w w1 : world)
    (ys : list Y) (e : exn) :
  Openshift.attempt self body watch_url get_url s w = (ys, Openshift.Broke s' e, w1) ->
  upstream_error e = true ->
  (Datatypes.S bad_responses <= MAX_BAD_RESPONSES)%nat ->
  Openshift.watch_loop self body watch_url get_url (Datatypes.S n) bad_responses s w
  = match Openshift.watch_loop self body watch_url get_url n (Datatypes.S bad_responses) s'
            (snd (sleep WATCH_RETRY_SECS w1)) with
    | (ys', r, w2) => (ys ++ ys', r, w2)
    end.
Proof.
  intros Hatt He Hle. cbn [Openshift.watch_loop]. rewrite Hatt.
  rewrite (upstream_error_counted _ _ He).
  destruct (Nat.ltb_spec MAX_BAD_RESPONSES (Datatypes.S bad_responses)); [lia|reflexivity].
Qed.

(** An exception with which the consumer is abandoned was raised by the
    consumer's loop body. *)
Lemma on_lines_abandoned (ls : list line) (fin : option exn) :
  forall s w ys e w',
    Openshift.on_lines self body get_url s ls fin w
    = (ys, Openshift.Abandoned (Raise e), w') ->
    exists s0 snapshot w0 ys0 w1, body s0 snapshot w0 = (ys0, Raise e, w1).
Proof.
  induction ls as [|l ls IH]; intros s w ys e w'; cbn [Openshift.on_lines].
  - destruct fin; discriminate.
  - destruct (loads l) as [j|x].
    2:{ destruct x; try discriminate; apply IH. }
    destruct (py_in "object" j) as [[|]|]; try discriminate; [|apply IH].
    destruct (py_in "type" j) as [[|]|]; try discriminate; [|apply IH].
    destruct (Openshift.fresh_copy self get_url w) as [[snapshot|x] w1]; [|discriminate].
    destruct (body s snapshot w1) as [[ys1 [[s1|r]|x]] w2] eqn:Hb.
    + destruct (Openshift.on_lines self body get_url s1 ls fin w2) as [[ys2 t] w3] eqn:Hrec.
      intro H. injection H as _ -> _. eapply IH. exact Hrec.
    + discriminate.
    + intro H. injection H as _ <- _. eauto 6.
Qed.

Hypothesis body_raises_no_upstream_error :
  forall s snapshot w ys e w',
    body s snapshot w = (ys, Raise e, w') -> upstream_error e = false.

(** With at most MAX_BAD_RESPONSES attempts left to count, no upstream error
    leaves the loop. *)
Lemma watch_loop_keeps_upstream_errors (n : nat) :
  forall bad_responses s w ys e w',
    (bad_responses + n <= MAX_BAD_RESPONSES)%nat ->
    Openshift.watch_loop self body watch_url get_url n bad_responses s w
    = (ys, Raise e, w') ->
    upstream_error e = false.
Proof.
  induction n as [|n IH]; intros bad s w ys e w' Hle; cbn [Openshift.watch_loop].
  - discriminate.
  - destruct (Openshift.attempt self body watch_url get_url s w) as [[ys1 t] w1] eqn:Hatt.
    destruct t as [s1|[r|x]|s1 x].
    + destruct (Openshift.watch_loop _ _ _ _ n bad s1 _) as [[ys2 r2] w2] eqn:Hrec.
      intro H. injection H as _ -> _. eapply IH; [|exact Hrec]. lia.
    + discriminate.
    + intro H. injection H as _ <- _.
      unfold Openshift.attempt in Hatt.
      destruct (bind _ _ w) as [[response|x'] w0]; [|discriminate].
      destruct (on_lines_abandoned _ _ _ _ _ _ _ Hatt) as (s0 & j & w2 & ys0 & w3 & Hb).
      eapply body_raises_no_upstream_error; exact Hb.
    + destruct (upstream_error x) eqn:Hx.
      * rewrite (upstream_error_counted _ _ Hx).
        destruct (Nat.ltb_spec MAX_BAD_RESPONSES (Datatypes.S bad)) as [Hlt|Hge]; [lia|].
        destruct (Openshift.watch_loop _ _ _ _ n (Datatypes.S bad) s1 _)
          as [[ys2 r2] w2] eqn:Hrec.
        intro H. injection H as _ -> _. eapply IH; [|exact Hrec]. lia.
      * destruct (Openshift.on_exception bad x) as [bad' [x'|]] eqn:Hon.
        -- intro H. injection H as _ <- _.
           now rewrite (on_exception_same _ _ _ _ Hon).
        -- pose proof (counter_moves_on_upstream_error_only bad x Hx) as Hbad.
           rewrite Hon in Hbad. simpl in Hbad. subst bad'.
           destruct (Openshift.watch_loop _ _ _ _ n bad s1 _) as [[ys2 r2] w2] eqn:Hrec.
           intro H. injection H as _ -> _. eapply IH; [|exact Hrec]. lia.
Qed.

End BadResponses.

(** C2. No run of watch_resource ends by raising an upstream error: the
    counter starts at 0 and grows by at most one in each of the WATCH_RETRY =
    20 attempts, so it never exceeds MAX_BAD_RESPONSES = 20.  Twenty-one
    replies of status 500 are counted and slept over twenty times, and the
    generator then ends without a value and without an exception. *)
Theorem bad_responses_never_propagated :
  (forall (L : Externals) (self : Openshift.t)
          (api_path api_version resource_type resource_name : string)
          (request_args : list (string * json)) (w : world) (code : Z),
      snd (fst (Openshift.snapshots self api_path api_version resource_type
                  resource_name request_args w))
      <> Raise (OsbsResponseException code))
  /\
  (let run := Openshift.snapshots (L := sample_lib) anon "apis" API_VERSION
                "pipelineruns" "build-1" []
                (world_of (repeat (error_reply 500) 21)) in
   fst run = ([], Ok tt)
   /\ List.length (sent (snd run)) = 20%nat
   /\ slept (snd run) = repeat WATCH_RETRY_SECS 20
   /\ List.length (replies (snd run)) = 1%nat).
Proof.
  split.
  - intros L self api_path api_version resource_type resource_name request_args w code.
    unfold Openshift.snapshots, Openshift.watch_resource.
    destruct (Openshift.watch_loop _ _ _ _ _ _ _ _) as [[ys [r|e]] w'] eqn:Hrun;
      simpl; [discriminate|].
    intro H. injection H as ->.
    apply watch_loop_keeps_upstream_errors in Hrun; [discriminate| |reflexivity].
    intros s snapshot w0 ys0 e w1. unfold Openshift.collect. discriminate.
  - vm_compute. repeat split; reflexivity.
Qed.

(** ** Task-run states *)

Section TaskStates.
Context {L : Externals}.






End TaskStates.


(** The same task run without a completionTime does not count as failed. *)
Lemma unfinished_task_is_not_failed :
  fst (PipelineRun.any_task_failed (L := sample_lib) sample_run
         (world_of [json_reply
            (snapshot_of "Unknown" "Running"
               (Some [("build-1-clone", task_run "clone" "False" "Failed" None)]))]))
  = Ok false.
Proof. vm_compute. reflexivity. Qed.

(** C3, as stated, fails: a snapshot lists a task run that was just created,
    whose status has no conditions yet, and a task run that failed and
    completed; any_task_failed raises KeyError instead of returning true. *)
Lemma any_task_failed_counterexample :
  task_runs_of created_and_failed
  = Ok [created_task_run; task_run "clone" "False" "Failed" (Some "2022-03-01T10:05:00Z")]
  /\ failed_task_run (task_run "clone" "False" "Failed" (Some "2022-03-01T10:05:00Z"))
  /\ fst (PipelineRun.any_task_failed (L := sample_lib) sample_run
            (world_of [json_reply created_and_failed]))
     = Raise (KeyError "conditions").
Proof.
  split; [reflexivity|]. split; [|vm_compute; reflexivity].
  exists (JStr "False"), (JStr "Failed"), (JStr "2022-03-01T10:05:00Z").
  split; [|repeat split; discriminate].
  unfold task_run_reads. do 3 eexists.
  repeat (split; [reflexivity|]). eexists. reflexivity.
Qed.

(** ** Log streaming *)

Lemma assoc_dict_set {V} (k : string) (v : V) (m : list (string * V)) :
  assoc k (dict_set k v m) = Some v.
Proof.
  induction m as [|[k' v'] m IH]; simpl.
  - now rewrite String.eqb_refl.
  - destruct (String.eqb k' k) eqn:E; simpl.
    + now rewrite String.eqb_refl.
    + now rewrite E.
Qed.

(** [int(x)] of a finite float [(-1)^s * m * 2^e] is its integer part,
    towards zero. *)
Lemma py_int_integer_part (x : float) (s : bool) (m : positive) (e : Z) :
  Prim2SF x = S754_finite s m e ->
  exists v,
    py_int x = Ok (if s then - v else v)
    /\ (0 <= e -> v = Zpos m * 2 ^ e)
    /\ (e < 0 -> v * 2 ^ (- e) <= Zpos m < (v + 1) * 2 ^ (- e)).
Proof.
  intro H. unfold py_int. rewrite H. exists (Z.shiftl (Zpos m) e).
  split; [reflexivity|]. split; intro He.
  - now apply Z.shiftl_mul_pow2.
  - rewrite Z.shiftl_div_pow2 by lia.
    assert (Hp : 0 < 2 ^ (- e)) by (apply Z.pow_pos_nonneg; lia).
    pose proof (Z.mul_div_le (Zpos m) _ Hp).
    pose proof (Z.mul_succ_div_gt (Zpos m) _ Hp). lia.
Qed.

Section IdleRule.
Context {L : Externals}.
Variable self : Pod.t.





End IdleRule.


(** The whole run of that stream: the second connection is refused at once,
    so the generator ends; its request asked for the last 60 seconds. *)
Lemma stream_logs_reconnects_once :
  let run := Pod._stream_logs (L := sample_lib) sample_pod 5 "step-clone" idle_world in
  fst run = (["cloning"; "done"], Ok (Some tt))
  /\ map (fun rq => assoc "sinceSeconds" (query (rq_url rq))) (sent (snd run))
     = [None; Some (JNum 60)].
Proof. vm_compute. split; reflexivity. Qed.

(** The idle time is a float difference.  Between the readings 0.3 and 60.3
    it is 60.0, although the second number stored is less than 60 above the
    first: the loop goes round again, asking for 59 seconds; between 0.3 and
    61.3 it asks for 60; between 0.5 and 60.25 the generator ends. *)
Lemma stream_logs_float_idle :
  (let run := Pod._stream_logs (L := sample_lib) sample_pod 5 "step-clone"
                (silent_world 0.3 60.3) in
   map (fun rq => assoc "sinceSeconds" (query (rq_url rq))) (sent (snd run))
   = [None; Some (JNum 59)])
  /\ (let run := Pod._stream_logs (L := sample_lib) sample_pod 5 "step-clone"
                   (silent_world 0.3 61.3) in
      map (fun rq => assoc "sinceSeconds" (query (rq_url rq))) (sent (snd run))
      = [None; Some (JNum 60)])
  /\ (let run := Pod._stream_logs (L := sample_lib) sample_pod 5 "step-clone"
                   (silent_world 0.5 60.25) in
      fst run = ([], Ok (Some tt)) /\ List.length (sent (snd run)) = 1%nat).
Proof. vm_compute. repeat split; reflexivity. Qed.

(** A clock that gives no number (NaN) ends the generator with the
    ValueError of [int]. *)
Lemma stream_logs_nan_idle :
  fst (Pod._stream_logs (L := sample_lib) sample_pod 5 "step-clone"
         (silent_world nan 0))
  = ([], Raise ValueError).
Proof. vm_compute. reflexivity. Qed.

(** An upstream error response is no disconnect: the generator raises. *)
Lemma stream_logs_upstream_error :
  fst (Pod._stream_logs (L := sample_lib) sample_pod 5 "step-clone"
         (world_of [error_reply 404]))
  = ([], Raise (OsbsResponseException 404)).
Proof. vm_compute. reflexivity. Qed.

(** ** Task-run discovery *)

Section Turns.
Context {Y S R : Type}.
Variable turn : S -> json -> list Y * py (flow S R).

Lemma turns_over_app (a b : list json) :
  forall s,
    turns_over turn (a ++ b) s
    = match turns_over turn a s with
      | (ys, Ok (Next s')) =>
          match turns_over turn b s' with
          | (ys', r) => (ys ++ ys', r)
          end
      | other => other
      end.
Proof.
  induction a as [|x a IH]; intro s; simpl.
  - now destruct (turns_over turn b s).
  - destruct (turn s x) as [ys [[s1|r]|e]]; try reflexivity.
    rewrite IH. destruct (turns_over turn a s1) as [ys1 [[s2|r]|e]]; try reflexivity.
    destruct (turns_over turn b s2) as [ys2 r2]. now rewrite app_assoc.
Qed.

Lemma turns_over_left (a b : list json) (s : S) :
  (forall s', snd (turns_over turn a s) <> Ok (Next s')) ->
  turns_over turn (a ++ b) s = turns_over turn a s.
Proof.
  intro H. rewrite turns_over_app.
  destruct (turns_over turn a s) as [ys [[s'|r]|e]]; try reflexivity.
  now destruct (H s').
Qed.

Context {L : Externals}.
Variable self : Openshift.t.
Variables watch_url get_url : url.

Let body : S -> json -> gen Y (flow S R) := fun s snapshot w => (turn s snapshot, w).

Lemma left_at_more (a b : list json) (s : S) (r : py (flow S R)) (w' : world) :
  left_at turn self get_url a s r w' -> left_at turn self get_url (a ++ b) s r w'.
Proof.
  intros (before & x & after & s1 & w & -> & H1 & H2 & H3).
  exists before, x, (after ++ b), s1, w. rewrite <- app_assoc. auto.
Qed.

Lemma left_at_later (a b : list json) (s s' : S) (r : py (flow S R)) (w' : world) :
  snd (turns_over turn a s) = Ok (Next s') ->
  left_at turn self get_url b s' r w' -> left_at turn self get_url (a ++ b) s r w'.
Proof.
  intros Ha (before & x & after & s1 & w & -> & H1 & H2 & H3).
  exists (a ++ before), x, after, s1, w. rewrite <- app_assoc.
  repeat split; auto. rewrite turns_over_app.
  destruct (turns_over turn a s) as [ys r0]. cbn [snd] in Ha. subst r0.
  now destruct (turns_over turn before s') as [ys' r'].
Qed.

(** After a part [a] of the snapshots over which the consumer went on, it
    follows the rest as it follows the whole. *)
Lemma follows_app {A} (a b : list json) (s s' : S) (ys : list Y)
    (ended : S -> A) (left : py R -> A) (w0 : world) (ys' : list Y) (x : A) (w' : world) :
  turns_over turn a s = (ys, Ok (Next s')) ->
  follows turn self get_url b s' ended left w0 (ys', x, w') ->
  follows turn self get_url (a ++ b) s ended left w0 (ys ++ ys', x, w').
Proof.
  intros Ha [Hys Hr]. unfold follows in *. cbn [fst snd] in *.
  assert (Hs : snd (turns_over turn a s) = Ok (Next s')) by now rewrite Ha.
  rewrite turns_over_app, Ha.
  destruct (turns_over turn b s') as [yb rb]. cbn [fst snd] in *.
  split; [now subst|].
  destruct rb as [[s2|r]|e]; [exact Hr| |];
    (split; [tauto|]); eapply left_at_later; try eassumption; tauto.
Qed.

(** If the consumer left within [a], what comes after [a] changes nothing. *)
Lemma follows_left {A} (a b : list json) (s : S)
    (ended : S -> A) (left : py R -> A) (w0 w1 : world) (run : list Y * A * world) :
  (forall s', snd (turns_over turn a s) <> Ok (Next s')) ->
  follows turn self get_url a s ended left w0 run ->
  follows turn self get_url (a ++ b) s ended left w1 run.
Proof.
  intros Hleft [Hys Hr]. unfold follows. rewrite (turns_over_left a b s Hleft).
  split; [exact Hys|].
  destruct (snd (turns_over turn a s)) as [[s'|r]|e].
  - now destruct (Hleft s').
  - split; [tauto|]. now apply left_at_more.
  - split; [tauto|]. now apply left_at_more.
Qed.

(** One connection. *)
Lemma on_lines_follows (ls : list line) (fin : option exn) :
  forall s w delivered t0 w0,
    Openshift.on_lines self Openshift.collect get_url tt ls fin w = (delivered, t0, w0) ->
    follows turn self get_url delivered s (handed_on t0) Openshift.Abandoned w0
      (Openshift.on_lines self body get_url s ls fin w).
Proof.
  induction ls as [|l ls IH]; intros s w delivered t0 w0; cbn [Openshift.on_lines].
  - destruct fin; intro H; injection H as <- <- <-; unfold follows; simpl; repeat split.
  - assert (Hbroke : forall e,
               ([], Openshift.Broke tt e, w) = (delivered, t0, w0) ->
               follows turn self get_url delivered s (handed_on t0) Openshift.Abandoned w0
                 ([], Openshift.Broke s e, w)).
    { intros e H. injection H as <- <- <-. unfold follows. simpl. repeat split. }
    destruct (loads l) as [j|x].
    2:{ destruct x; try apply Hbroke. apply IH. }
    destruct (py_in "object" j) as [[|]|]; [| apply IH | apply Hbroke].
    destruct (py_in "type" j) as [[|]|]; [| apply IH | apply Hbroke].
    destruct (Openshift.fresh_copy self get_url w) as [[snapshot|x] w1] eqn:Hfresh.
    2:{ intro H. injection H as <- <- <-. unfold follows. simpl. repeat split. }
    unfold Openshift.collect at 1.
    destruct (Openshift.on_lines self Openshift.collect get_url tt ls fin w1)
      as [[rest t1] w2] eqn:Hrest.
    intro H. injection H as <- <- <-.
    pose proof (fun s' => IH s' _ _ _ _ Hrest) as IH'.
    unfold body at 1. destruct (turn s snapshot) as [ys1 [[s1|r]|x]] eqn:Ht.
    + specialize (IH' s1). rename IH' into IH1.
      destruct (Openshift.on_lines self body get_url s1 ls fin w1) as [[ys2 t2] w3].
      apply (follows_app [snapshot] rest s s1 ys1); [|exact IH1].
      simpl. rewrite Ht. now rewrite app_nil_r.
    + apply (follows_left [snapshot] rest s _ _ w1).
      * intro s'. simpl. rewrite Ht. discriminate.
      * unfold follows. simpl. rewrite Ht. cbn [fst snd].
        repeat split. exists [], snapshot, [], s, w. rewrite Ht. auto.
    + apply (follows_left [snapshot] rest s _ _ w1).
      * intro s'. simpl. rewrite Ht. discriminate.
      * unfold follows. simpl. rewrite Ht. cbn [fst snd].
        repeat split. exists [], snapshot, [], s, w. rewrite Ht. auto.
Qed.

Lemma attempt_follows (s : S) (w : world) (delivered : list json)
    (t0 : Openshift.tried unit Empty_set) (w0 : world) :
  Openshift.attempt self Openshift.collect watch_url get_url tt w = (delivered, t0, w0) ->
  follows turn self get_url delivered s (handed_on t0) Openshift.Abandoned w0
    (Openshift.attempt self body watch_url get_url s w).
Proof.
  unfold Openshift.attempt.
  destruct (bind _ _ w) as [[response|x] w1].
  - apply on_lines_follows.
  - intro H. injection H as <- <- <-. unfold follows. simpl. repeat split.
Qed.

(** What the first attempt delivers comes first in what the watch delivers. *)
Lemma watch_loop_collect_step (n bad_responses : nat) (w : world)
    (delivered all1 : list json) (r0 : py (flow unit Empty_set)) (w0 wc : world)
    (t0 : Openshift.tried unit Empty_set) :
  Openshift.attempt self Openshift.collect watch_url get_url tt w = (all1, t0, wc) ->
  Openshift.watch_loop self Openshift.collect watch_url get_url (Datatypes.S n) bad_responses tt w
  = (delivered, r0, w0) ->
  exists more, delivered = all1 ++ more.
Proof.
  intro Hc. cbn [Openshift.watch_loop]. rewrite Hc.
  assert (Hmore : forall bad',
             match Openshift.watch_loop self Openshift.collect watch_url get_url n bad' tt
                     (snd (Openshift.log_and_sleep wc)) with
             | (ys', r', w2) => (all1 ++ ys', r', w2)
             end = (delivered, r0, w0) ->
             exists more, delivered = all1 ++ more).
  { intro bad'.
    destruct (Openshift.watch_loop self Openshift.collect watch_url get_url n bad' tt _)
      as [[all2 r2] w2]. intro H. injection H as <- _ _. eauto. }
  assert (Hnone : forall r1, (all1, r1, wc) = (delivered, r0, w0) ->
                             exists more, delivered = all1 ++ more).
  { intros r1 H. injection H as <- _ _. exists []. now rewrite app_nil_r. }
  destruct t0 as [[]|[[]|x]|[] x].
  - apply Hmore.
  - apply Hnone.
  - destruct (Openshift.on_exception bad_responses x) as [bad' [x'|]];
      [apply Hnone | apply Hmore].
Qed.

(** All the attempts of watch_resource. *)
Lemma watch_loop_follows (n : nat) :
  forall bad_responses s w delivered r0 w0,
    Openshift.watch_loop self Openshift.collect watch_url get_url n bad_responses tt w
    = (delivered, r0, w0) ->
    follows turn self get_url delivered s (handed_back r0) left_with w0
      (Openshift.watch_loop self body watch_url get_url n bad_responses s w).
Proof.
  induction n as [|n IH]; intros bad s w delivered r0 w0.
  - cbn [Openshift.watch_loop]. intro H. injection H as <- <- <-.
    unfold follows. simpl. repeat split.
  - destruct (Openshift.attempt self Openshift.collect watch_url get_url tt w)
      as [[all1 t0] wc] eqn:Hc.
    intro Hrun. destruct (watch_loop_collect_step _ _ _ _ _ _ _ _ _ Hc Hrun) as (more & Hmore).
    revert Hrun. cbn [Openshift.watch_loop]. rewrite Hc.
    pose proof (attempt_follows s w _ _ _ Hc) as Hatt.
    destruct (Openshift.attempt self body watch_url get_url s w) as [[ys1 t] wb].
    destruct Hatt as [Hys Hatt]. cbn [fst snd] in Hys, Hatt.
    destruct (turns_over turn all1 s) as [ya [[s1|r]|x]] eqn:Hturns; cbn [fst snd] in *.
    + (* the consumer stayed to the end of the attempt *)
      destruct Hatt as [-> ->]. subst ys1. clear Hmore more.
      assert (Hgo : forall bad',
                 match Openshift.watch_loop self Openshift.collect watch_url get_url n bad'
                         tt (snd (Openshift.log_and_sleep wc)) with
                 | (ys', r', w2) => (all1 ++ ys', r', w2)
                 end = (delivered, r0, w0) ->
                 follows turn self get_url delivered s (handed_back r0) left_with w0
                   match Openshift.watch_loop self body watch_url get_url n bad' s1
                           (snd (Openshift.log_and_sleep wc)) with
                   | (ys', r', w2) => (ya ++ ys', r', w2)
                   end).
      { intro bad'.
        destruct (Openshift.watch_loop self Openshift.collect _ _ n bad' tt _)
          as [[all2 r2] w2] eqn:Hrec.
        intro H. injection H as <- <- <-.
        specialize (IH bad' s1 _ _ _ _ Hrec).
        destruct (Openshift.watch_loop self body _ _ n bad' s1 _) as [[yb rb] w3].
        now apply (follows_app all1 all2 s s1 ya). }
      assert (Hstop : forall e,
                 (all1, Raise e, wc) = (delivered, r0, w0) ->
                 follows turn self get_url delivered s (handed_back r0) left_with w0
                   (ya, Raise e, wc)).
      { intros e H. injection H as <- <- <-. unfold follows. rewrite Hturns.
        repeat split. }
      destruct t0 as [[]|[[]|x]|[] x]; cbn [handed_on].
      * apply Hgo.
      * apply Hstop.
      * destruct (Openshift.on_exception bad x) as [bad' [x'|]]; [apply Hstop | apply Hgo].
    + (* the consumer returned *)
      destruct Hatt as [-> Hleft]. subst ys1 delivered. intros _.
      apply (follows_left all1 more s _ _ wb).
      * intro s'. rewrite Hturns. discriminate.
      * unfold follows. rewrite Hturns. cbn [fst snd]. repeat split. exact Hleft.
    + (* the consumer raised *)
      destruct Hatt as [-> Hleft]. subst ys1 delivered. intros _.
      apply (follows_left all1 more s _ _ wb).
      * intro s'. rewrite Hturns. discriminate.
      * unfold follows. rewrite Hturns. cbn [fst snd]. repeat split. exact Hleft.
Qed.

End Turns.

Lemma existsb_eqb_false (x : string) (l : list string) :
  existsb (String.eqb x) l = false -> ~ In x l.
Proof.
  intros H Hin. assert (existsb (String.eqb x) l = true); [|congruence].
  apply existsb_exists. exists x. split; [assumption | apply String.eqb_refl].
Qed.

Lemma NoDup_snoc {A} (l : list A) (x : A) :
  NoDup l -> ~ In x l -> NoDup (l ++ [x]).
Proof.
  induction l as [|y l IH]; simpl; intros Hnd Hx.
  - constructor; [intros []|constructor].
  - inversion Hnd; subst. constructor.
    + rewrite in_app_iff. intros [H|[H|[]]]; [contradiction|]. subst. apply Hx. now left.
    + apply IH; [assumption|]. intro H. apply Hx. now right.
Qed.

(** The names added by one pass over [task_runs.items()] are new: together
    with the names reported before, they are reported once, and all of them
    are in [watched_task_runs]. *)
Lemma new_task_runs_once (before : list string) (items : list (string * json)) :
  forall watched current watched' current',
    NoDup (before ++ map snd current) ->
    incl (before ++ map snd current) watched ->
    PipelineRun.new_task_runs items watched current = Ok (watched', current') ->
    NoDup (before ++ map snd current') /\ incl (before ++ map snd current') watched'.
Proof.
  induction items as [|[name tr] items IH]; intros watched current watched' current' Hnd Hin;
    simpl.
  - intro H. injection H as <- <-. now split.
  - destruct (existsb (String.eqb name) watched) eqn:Hseen; [now apply IH|].
    destruct (getitem tr "pipelineTaskName") as [task|e]; [|discriminate].
    simpl. apply IH.
    + rewrite map_app, app_assoc. simpl. apply NoDup_snoc; [assumption|].
      intro H. apply (existsb_eqb_false _ _ Hseen). now apply Hin.
    + rewrite map_app, app_assoc. simpl. intros x Hx.
      apply in_app_or in Hx. destruct Hx as [Hx|[<-|[]]]; [right; now apply Hin | now left].
Qed.

Lemma taskruns_turn_once (before : list (list (json * string))) (watched : list string)
    (pipeline_run : json) :
  NoDup (reported before) ->
  incl (reported before) watched ->
  NoDup (reported (before ++ fst (PipelineRun.taskruns_turn watched pipeline_run)))
  /\ forall watched',
       snd (PipelineRun.taskruns_turn watched pipeline_run) = Ok (Next watched') ->
       incl (reported (before ++ fst (PipelineRun.taskruns_turn watched pipeline_run)))
            watched'.
Proof.
  intros Hnd Hin. unfold PipelineRun.taskruns_turn.
  destruct (py_bind _ _) as [task_runs|e].
  2:{ destruct e; simpl; rewrite app_nil_r; (split; [assumption|]);
        try discriminate.
      intros ? H. now injection H as <-. }
  destruct (py_bind (dict_items task_runs) _) as [[watched1 current]|e] eqn:Hnew.
  2:{ simpl. rewrite app_nil_r. split; [assumption | discriminate]. }
  destruct (dict_items task_runs) as [items|e]; [|discriminate]. simpl in Hnew.
  destruct (new_task_runs_once (reported before) items watched [] watched1 current)
    as [Hnd1 Hin1]; try (simpl; rewrite app_nil_r; assumption); [assumption|].
  assert (Hrep : reported (before ++ [current]) = reported before ++ map snd current).
  { unfold reported. rewrite List.concat_app, map_app. simpl. now rewrite app_nil_r. }
  cbn [fst snd]. rewrite Hrep. split; [assumption|].
  intros watched'. destruct (first_condition pipeline_run "status") as [status|e].
  - destruct (_ || _)%bool; [discriminate|]. intro H. now injection H as <-.
  - destruct e; discriminate.
Qed.

(** Over any sequence of snapshots, no task-run name is reported twice. *)
Lemma taskruns_over_once (snaps : list json) :
  forall before watched,
    NoDup (reported before) ->
    incl (reported before) watched ->
    NoDup (reported (before ++ fst (turns_over PipelineRun.taskruns_turn snaps watched))).
Proof.
  induction snaps as [|snapshot snaps IH]; intros before watched Hnd Hin; simpl.
  - now rewrite app_nil_r.
  - destruct (taskruns_turn_once before watched snapshot Hnd Hin) as [Hnd1 Hin1].
    destruct (PipelineRun.taskruns_turn watched snapshot) as [ys [[watched1|r]|e]];
      simpl in *; try assumption.
    specialize (IH (before ++ ys) watched1 Hnd1 (Hin1 _ eq_refl)).
    destruct (turns_over PipelineRun.taskruns_turn snaps watched1) as [ys' r'].
    simpl in *. now rewrite app_assoc.
Qed.

(** A snapshot that has task runs and a resolved condition ends the loop. *)
Lemma taskruns_turn_terminal (watched : list string) (pipeline_run task_runs : json) :
  (st <~ getitem pipeline_run "status" ;; getitem st "taskRuns") = Ok task_runs ->
  terminal pipeline_run ->
  forall watched', snd (PipelineRun.taskruns_turn watched pipeline_run) <> Ok (Next watched').
Proof.
  intros Htr Hterm watched'. unfold PipelineRun.taskruns_turn. rewrite Htr.
  destruct (py_bind (dict_items task_runs) _) as [[watched1 current]|e]; [|discriminate].
  cbn [snd]. destruct Hterm as [-> | ->]; simpl; discriminate.
Qed.

(** How a turn treats a snapshot without status.taskRuns: nothing is
    yielded, nothing is looked at, the loop goes on. *)
Lemma taskruns_turn_passes (watched : list string) (pipeline_run : json) :
  no_task_runs pipeline_run ->
  PipelineRun.taskruns_turn watched pipeline_run = ([], Ok (Next watched)).
Proof.
  intros (key & H). unfold PipelineRun.taskruns_turn. now rewrite H.
Qed.

(** Where a loop leaves is where its turns first leave. *)
Lemma left_at_here {L : Externals} {Y S R} (turn : S -> json -> list Y * py (flow S R))
    (self : Openshift.t) (get_url : url) (before after : list json) (snapshot : json)
    (s s1 : S) (r : py (flow S R)) (w' : world) :
  snd (turns_over turn before s) = Ok (Next s1) ->
  (forall s2, snd (turn s1 snapshot) <> Ok (Next s2)) ->
  (forall s2, r <> Ok (Next s2)) ->
  left_at turn self get_url (before ++ snapshot :: after) s r w' ->
  exists w, Openshift.fresh_copy self get_url w = (Ok snapshot, w').
Proof.
  intros Hb Hleaves Hr (before' & x & after' & s1' & w & Heq & Hb' & Hx & Hfresh).
  apply app_eq_app in Heq. destruct Heq as (l & [[H1 H2]|[H1 H2]]).
  - (* the loop would have left after [snapshot] *)
    destruct l as [|y l].
    + rewrite app_nil_r in H1. subst before'. simpl in H2. injection H2 as <- _.
      now exists w.
    + simpl in H2. injection H2 as <- _. subst before.
      rewrite turns_over_app in Hb.
      destruct (turns_over turn before' s) as [ys0 r0]. cbn [snd] in Hb'. subst r0.
      simpl in Hb. rewrite <- Hx in Hr.
      destruct (turn s1' x) as [ysx [[s2|rx]|e]]; cbn [snd] in *;
        try discriminate. now destruct (Hr s2).
  - (* the loop would have left before [snapshot] *)
    destruct l as [|y l].
    + rewrite app_nil_r in H1. subst before'. simpl in H2. injection H2 as <- _.
      now exists w.
    + simpl in H2. injection H2 as <- _. subst before'.
      rewrite turns_over_app in Hb'.
      destruct (turns_over turn before s) as [ys0 r0]. cbn [snd] in Hb. subst r0.
      simpl in Hb'.
      destruct (turn s1 snapshot) as [ysx [[s2|rx]|e]]; cbn [snd] in *;
        try discriminate. now destruct (Hleaves s2).
Qed.

Section WaitForTaskruns.
Context {L : Externals}.
Variable self : PipelineRun.t.

Let get_url : url :=
  Openshift.get_url (PipelineRun.os self) PipelineRun.api_path PipelineRun.api_version
    "pipelineruns" (PipelineRun.pipeline_run_name self).

Let watched_snapshots : gen json unit :=
  Openshift.snapshots (PipelineRun.os self) PipelineRun.api_path PipelineRun.api_version
    "pipelineruns" (PipelineRun.pipeline_run_name self) [].

(** wait_for_taskruns follows the watch of the pipeline run. *)
Lemma wait_for_taskruns_follows (w : world) :
  follows PipelineRun.taskruns_turn (PipelineRun.os self) get_url
    (fst (fst (watched_snapshots w))) []
    (fun _ => snd (fst (watched_snapshots w)))
    (fun r => match r with Ok _ => Ok tt | Raise e => Raise e end)
    (snd (watched_snapshots w))
    (PipelineRun.wait_for_taskruns self w).
Proof.
  unfold watched_snapshots, Openshift.snapshots, PipelineRun.wait_for_taskruns,
    Openshift.watch_resource.
  destruct (Openshift.watch_loop (PipelineRun.os self) Openshift.collect _ _ WATCH_RETRY 0
              tt w) as [[delivered r0] w0] eqn:Hrun.
  pose proof (watch_loop_follows PipelineRun.taskruns_turn (PipelineRun.os self) _ _
                WATCH_RETRY 0%nat [] w delivered r0 w0 Hrun) as [Hys Hr].
  fold get_url in Hr.
  destruct (Openshift.watch_loop (PipelineRun.os self) _ _ _ WATCH_RETRY 0 [] w)
    as [[ys r] w1].
  cbn [fst snd] in Hys, Hr.
  assert (Hfst : fst (fst (match r0 with
                           | Ok _ => (delivered, Ok tt, w0)
                           | Raise e => (delivered, Raise e, w0)
                           end)) = delivered) by now destruct r0.
  assert (Hsnd : snd (match r0 with
                      | Ok _ => (delivered, @Ok unit tt, w0)
                      | Raise e => (delivered, Raise e, w0)
                      end) = w0) by now destruct r0.
  unfold follows. rewrite Hfst, Hsnd.
  destruct (turns_over PipelineRun.taskruns_turn delivered []) as [yt [[s'|x]|e]];
    cbn [fst snd] in *.
  - destruct Hr as [-> ->]. destruct r0 as [f|e]; cbn; auto.
  - destruct Hr as [-> Hleft]. cbn. auto.
  - destruct Hr as [-> Hleft]. cbn. auto.
Qed.

End WaitForTaskruns.

(** C5, as amended. Within one call of wait_for_taskruns, whatever the
    cluster answers, the batches yielded are those of the loop's turns over
    the snapshots the watch of the pipeline run delivers, taken in their
    order until a turn leaves the loop, and the call ends as that turn left
    (as the watch ends, if none did); no task-run name is reported twice;
    a delivered snapshot that has status.taskRuns and whose first condition
    has status 'True' or 'False' ends the call, if the loop reaches it: no
    batch is yielded for a later snapshot and the world is left as the
    re-fetch that returned this snapshot left it; and a snapshot without
    status.taskRuns, whatever its condition, is passed over: the batches are
    the same as without it. *)
Theorem wait_for_taskruns_reports_once (L : Externals) (self : PipelineRun.t) (w : world) :
  let watched :=
    Openshift.snapshots (PipelineRun.os self) PipelineRun.api_path PipelineRun.api_version
      "pipelineruns" (PipelineRun.pipeline_run_name self) [] w in
  let delivered := fst (fst watched) in
  let run := PipelineRun.wait_for_taskruns self w in
  fst (fst run) = fst (turns_over PipelineRun.taskruns_turn delivered [])
  /\ snd (fst run)
     = match snd (turns_over PipelineRun.taskruns_turn delivered []) with
       | Ok (Next _) => snd (fst watched)
       | Ok (Return _) => Ok tt
       | Raise e => Raise e
       end
  /\ NoDup (reported (fst (fst run)))
  /\ (forall before pipeline_run after seen,
        delivered = before ++ pipeline_run :: after ->
        snd (turns_over PipelineRun.taskruns_turn before []) = Ok (Next seen) ->
        (has_task_runs pipeline_run -> terminal pipeline_run ->
         fst (fst run)
         = fst (turns_over PipelineRun.taskruns_turn (before ++ [pipeline_run]) [])
         /\ snd (fst run)
            = match snd (PipelineRun.taskruns_turn seen pipeline_run) with
              | Ok _ => Ok tt
              | Raise e => Raise e
              end
         /\ exists w0,
              Openshift.fresh_copy (PipelineRun.os self)
                (Openshift.get_url (PipelineRun.os self) PipelineRun.api_path
                   PipelineRun.api_version "pipelineruns"
                   (PipelineRun.pipeline_run_name self)) w0
              = (Ok pipeline_run, snd run))
        /\ (no_task_runs pipeline_run ->
            fst (fst run)
            = fst (turns_over PipelineRun.taskruns_turn (before ++ after) []))).
Proof.
  intros watched delivered run.
  pose proof (wait_for_taskruns_follows self w) as [Hys Hr].
  fold watched in Hys, Hr. fold delivered in Hys, Hr. fold run in Hys, Hr.
  split; [exact Hys|]. split.
  { destruct (snd (turns_over PipelineRun.taskruns_turn delivered [])) as [[s'|x]|e];
      tauto. }
  split.
  { rewrite Hys. apply (taskruns_over_once delivered [] []); [constructor | intros ? []]. }
  intros before pipeline_run after seen Hd Hbefore. split.
  - intros (task_runs & Htr) Hterm.
    pose proof (taskruns_turn_terminal seen pipeline_run task_runs Htr Hterm) as Hleaves.
    assert (Hturns : turns_over PipelineRun.taskruns_turn delivered []
                     = turns_over PipelineRun.taskruns_turn (before ++ [pipeline_run]) []).
    { rewrite Hd. change (pipeline_run :: after) with ([pipeline_run] ++ after).
      rewrite app_assoc. apply turns_over_left. intro s'.
      rewrite turns_over_app.
      destruct (turns_over PipelineRun.taskruns_turn before []) as [yb rb].
      cbn [snd] in Hbefore. subst rb. simpl.
      specialize (Hleaves s').
      destruct (PipelineRun.taskruns_turn seen pipeline_run) as [yp [[s2|x]|e]];
        cbn [snd] in *; congruence. }
    assert (Hsnd : snd (turns_over PipelineRun.taskruns_turn delivered [])
                   = snd (PipelineRun.taskruns_turn seen pipeline_run)).
    { rewrite Hturns, turns_over_app.
      destruct (turns_over PipelineRun.taskruns_turn before []) as [yb rb].
      cbn [snd] in Hbefore. subst rb. simpl.
      now destruct (PipelineRun.taskruns_turn seen pipeline_run) as [yp [[s2|x]|e]]. }
    split; [now rewrite Hys, Hturns|].
    rewrite Hsnd in Hr. rewrite Hd in Hr.
    destruct (snd (PipelineRun.taskruns_turn seen pipeline_run)) as [[s2|x]|e] eqn:Hp.
    + now destruct (Hleaves s2).
    + destruct Hr as [Hres Hleft]. split; [exact Hres|].
      eapply left_at_here; [exact Hbefore | | | exact Hleft].
      * intro s2. rewrite Hp. discriminate.
      * discriminate.
    + destruct Hr as [Hres Hleft]. split; [exact Hres|].
      eapply left_at_here; [exact Hbefore | | | exact Hleft].
      * intro s2. rewrite Hp. discriminate.
      * discriminate.
  - intro Hnone. rewrite Hys, Hd, !turns_over_app.
    destruct (turns_over PipelineRun.taskruns_turn before []) as [yb rb].
    cbn [snd] in Hbefore. subst rb. simpl.
    rewrite (taskruns_turn_passes seen pipeline_run Hnone).
    now destruct (turns_over PipelineRun.taskruns_turn after seen).
Qed.

(** C5, witness: a watch that delivers a running snapshot, then a failed run
    with its task run, and would deliver it once more: the call ends at the
    second snapshot, after two batches and three requests. *)
Lemma wait_for_taskruns_reports_once_witness :
  let run := PipelineRun.wait_for_taskruns (L := sample_lib) sample_run
               (world_of [watch_reply [event_line; event_line; event_line];
                          json_reply running_snapshot; json_reply failed_late;
                          json_reply failed_late]) in
  fst (fst run)
  = fst (turns_over PipelineRun.taskruns_turn ([running_snapshot] ++ [failed_late]) [])
  /\ NoDup (reported (fst (fst run))).
Proof.
  pose proof (wait_for_taskruns_reports_once sample_lib sample_run
                (world_of [watch_reply [event_line; event_line; event_line];
                           json_reply running_snapshot; json_reply failed_late;
                           json_reply failed_late]))
    as (_ & _ & Hnd & Hstop).
  split; [|exact Hnd].
  refine (proj1 (proj1 (Hstop [running_snapshot] failed_late [failed_late] []
                         eq_refl eq_refl) _ (or_intror eq_refl))).
  eexists. reflexivity.
Defined.

(** C5, as stated, fails: a snapshot whose first condition is 'False' but
    which has no task runs yet is passed over, the loop goes on, and a
    batch is yielded from a later snapshot. *)
Lemma wait_for_taskruns_counterexample :
  terminal failed_early
  /\ turns_over PipelineRun.taskruns_turn [failed_early] [] = ([], Ok (Next []))
  /\ turns_over PipelineRun.taskruns_turn [failed_early; failed_late] []
     = ([[(JStr "clone", "build-1-clone")]], Ok (Return tt))
  /\ (let run := PipelineRun.wait_for_taskruns (L := sample_lib) sample_run
                   (world_of [watch_reply [event_line; event_line];
                              json_reply failed_early; json_reply failed_late]) in
      fst run = ([[(JStr "clone", "build-1-clone")]], Ok tt)
      /\ List.length (sent (snd run)) = 3%nat).
Proof.
  split; [right; reflexivity|]. repeat split; vm_compute; reflexivity.
Qed.

(** ** Starting a run *)

(** C6. When no manifest was given (None, or any other false value), or the
    manifest's metadata name is not the controller's pipeline-run name,
    start_pipeline_run raises and leaves the world as it was: no request
    has been sent, no reply consumed, so no POST is issued. *)
Theorem start_pipeline_run_rejects {L : Externals} (self : PipelineRun.t) (w : world) :
  truthy (PipelineRun.input_data self) = false \/
  manifest_name (PipelineRun.input_data self)
  <> Ok (JStr (PipelineRun.pipeline_run_name self)) ->
  exists e, PipelineRun.start_pipeline_run self w = (Raise e, w).
Proof.
  intro H. unfold PipelineRun.start_pipeline_run.
  destruct (truthy (PipelineRun.input_data self)) eqn:Ht; simpl.
  2:{ eexists. reflexivity. }
  destruct H as [H|H]; [discriminate|].
  unfold bind, lift. fold (manifest_name (PipelineRun.input_data self)).
  destruct (manifest_name (PipelineRun.input_data self)) as [run_name|e].
  - destruct (json_eq_str run_name (PipelineRun.pipeline_run_name self)) eqn:Hn; simpl.
    + apply json_eq_str_true in Hn. subst. now destruct H.
    + eexists. reflexivity.
  - eexists. reflexivity.
Qed.

(** C6, witness: the target is "build-1" and the manifest names "build-2";
    no request is sent although a reply is ready. *)
Lemma start_pipeline_run_rejects_witness :
  exists e,
    PipelineRun.start_pipeline_run (L := sample_lib) misnamed_run
      (world_of [json_reply (manifest "build-2")])
    = (Raise e, world_of [json_reply (manifest "build-2")]).
Proof.
  apply (start_pipeline_run_rejects (L := sample_lib) misnamed_run).
  right. vm_compute. discriminate.
Defined.

(** With a manifest that names the target, one POST of the manifest goes out. *)
Lemma start_pipeline_run_posts :
  let run := PipelineRun.start_pipeline_run (L := sample_lib) sample_run
               (world_of [json_reply (manifest "build-1")]) in
  fst run = Ok (manifest "build-1")
  /\ map rq_verb (sent (snd run)) = [POST].
Proof.
  vm_compute. split; reflexivity.
Qed.

(** ** The token exchange *)

Section TokenExchange.
Context {L : Externals}.
Variable self : Openshift.t.

Lemma session_token (rq : request) (w : world) :
  token (snd (session rq w)) = token w.
Proof. unfold session. now destruct (replies w). Qed.

(** A call made with [with_auth=False] neither reads nor assigns the token,
    whatever the exchange would do. *)
Lemma call_without_auth_token (exchange : io string) (v : verb) (u : url)
    (hdrs : list (string * string)) (kwargs : list (string * json)) (w : world) :
  token (snd (Openshift.call self exchange v u false hdrs kwargs w)) = token w.
Proof.
  unfold Openshift.call, Openshift._request_args, bind, ret, raise. simpl.
  destruct (given (Openshift.client_cert self) || given (Openshift.client_key self))%bool;
    [destruct (given (Openshift.client_cert self) && given (Openshift.client_key self))%bool|];
    simpl; try reflexivity; apply session_token.
Qed.

Lemma redirect_request_token (w : world) :
  token (snd (Openshift.redirect_request self w)) = token w.
Proof.
  unfold Openshift.redirect_request.
  destruct (Openshift.use_auth self); [|apply call_without_auth_token].
  destruct (given (Openshift.username self) && given (Openshift.password self))%bool;
    [apply call_without_auth_token|].
  destruct (Openshift.use_kerberos self); [|apply call_without_auth_token].
  unfold bind.
  destruct (given (Openshift.kerberos_keytab self)).
  - destruct (negb (given (Openshift.kerberos_principal self))); [reflexivity|].
    unfold lift. destruct (kerberos_ccache_init _ _ _); [|reflexivity].
    apply call_without_auth_token.
  - unfold ret. apply call_without_auth_token.
Qed.

(** C7. When the redirect carries a Location whose fragment has no
    access_token, the exchange raises KeyError, and so does the request that
    needed the token: not an OsbsAuthException.  When the answer has no
    Location header, get_oauth_token returns the empty string, and the
    request that needed the token raises OsbsAuthException. *)
Theorem oauth_redirect_without_token (w w1 : world) (r : response) :
  Openshift.redirect_request self w = (Ok r, w1) ->
  (forall location,
      header "location" (headers r) = Some location ->
      assoc "access_token" (parse_qs (urlparse_fragment location)) = None ->
      Openshift.get_oauth_token self w = (Raise (KeyError "access_token"), w1)
      /\ (Openshift.use_auth self = true -> token w = None ->
          forall u hdrs kwargs,
            Openshift.get self u true hdrs kwargs w
            = (Raise (KeyError "access_token"), w1)))
  /\ (header "location" (headers r) = None ->
      Openshift.get_oauth_token self w = (Ok "", w1)
      /\ (Openshift.use_auth self = true -> token w = None ->
          forall u hdrs kwargs,
            Openshift.get self u true hdrs kwargs w
            = (Raise (OsbsAuthException
                 "Please check your credentials. Token was not retrieved successfully."),
               w1))).
Proof.
  intro Hr.
  assert (Htok : token w1 = token w).
  { pose proof (redirect_request_token w) as H. now rewrite Hr in H. }
  split.
  - intros location Hloc Hfrag.
    assert (Hx : Openshift.get_oauth_token self w = (Raise (KeyError "access_token"), w1)).
    { unfold Openshift.get_oauth_token, bind. rewrite Hr.
      unfold Openshift.token_of_redirect. now rewrite Hloc, Hfrag. }
    split; [exact Hx|]. intros Hauth Hnone u hdrs kwargs.
    unfold Openshift.get, Openshift.call, Openshift._request_args, bind at 1 2 3.
    rewrite Hauth. simpl. unfold get_token at 1. rewrite Hnone.
    unfold bind at 1 2. now rewrite Hx.
  - intro Hloc.
    assert (Hx : Openshift.get_oauth_token self w = (Ok "", w1)).
    { unfold Openshift.get_oauth_token, bind. rewrite Hr.
      unfold Openshift.token_of_redirect. now rewrite Hloc. }
    split; [exact Hx|]. intros Hauth Hnone u hdrs kwargs.
    unfold Openshift.get, Openshift.call, Openshift._request_args, bind at 1 2 3.
    rewrite Hauth. simpl. unfold get_token at 1. rewrite Hnone.
    unfold bind at 1 2. rewrite Hx. unfold ret at 1, bind at 1, get_token.
    rewrite Htok, Hnone. reflexivity.
Qed.

End TokenExchange.

(** C7, witness: the redirect carries [expires_in] and [token_type] only. *)
Lemma oauth_redirect_without_token_witness :
  Openshift.get_oauth_token (L := sample_lib) with_auth
    (world_of [redirect_to "https://cluster.example/oauth/token/implicit#expires_in=86400&token_type=Bearer"])
  = (Raise (KeyError "access_token"),
     snd (Openshift.redirect_request (L := sample_lib) with_auth
            (world_of [redirect_to "https://cluster.example/oauth/token/implicit#expires_in=86400&token_type=Bearer"])))
  /\ fst (Openshift.get (L := sample_lib) with_auth
            (Openshift.get_url with_auth "apis" API_VERSION "pipelineruns" "build-1")
            true [] []
            (world_of [redirect_to "https://cluster.example/oauth/token/implicit#expires_in=86400&token_type=Bearer"]))
     = Raise (KeyError "access_token").
Proof.
  destruct (proj1 (oauth_redirect_without_token (L := sample_lib) with_auth
                     (world_of [redirect_to "https://cluster.example/oauth/token/implicit#expires_in=86400&token_type=Bearer"])
                     _ _ eq_refl)
              "https://cluster.example/oauth/token/implicit#expires_in=86400&token_type=Bearer"
              eq_refl eq_refl) as [Hx Hget].
  split; [exact Hx|].
  now rewrite (Hget eq_refl eq_refl).
Defined.

(** With an access_token in the fragment the exchange succeeds. *)
Lemma oauth_redirect_with_token :
  fst (Openshift.get_oauth_token (L := sample_lib) with_auth
         (world_of [redirect_to "https://cluster.example/oauth/token/implicit#access_token=s3cret&expires_in=86400"]))
  = Ok "s3cret".
Proof. vm_compute. reflexivity. Qed.

(** ** Error messages *)

Lemma py_bind_ok {A B} (m : py A) (k : A -> py B) (b : B) :
  py_bind m k = Ok b -> exists a, m = Ok a /\ k a = Ok b.
Proof. destruct m as [a|e]; simpl; [eauto | discriminate]. Qed.


Lemma insert_by_key_Forall {A} (P : Z * A -> Prop) (x : Z * A) (l : list (Z * A)) :
  P x -> Forall P l -> Forall P (insert_by_key x l).
Proof.
  intros Hx. induction 1 as [|y l Hy Hl IH]; simpl.
  - now constructor.
  - destruct (Z.ltb (fst x) (fst y)); repeat constructor; assumption.
Qed.

Lemma sort_by_key_Forall {A} (P : Z * A -> Prop) (l : list (Z * A)) :
  Forall P l -> Forall P (sort_by_key l).
Proof.
  unfold sort_by_key. intro H.
  assert (Hacc : Forall P (@nil (Z * A))) by constructor.
  revert Hacc. generalize (@nil (Z * A)) as acc.
  induction H as [|x l Hx _ IH]; intros acc Hacc; simpl; [assumption|].
  apply IH. now apply insert_by_key_Forall.
Qed.

Section ErrorMessages.
Context {L : Externals}.










End ErrorMessages.


(** C8, as stated, fails: a run with conditions [{status: "True", reason:
    "Succeeded"}], no task run and no annotations in its metadata has
    succeeded and has nothing to extract, but get_error_message raises
    KeyError instead of returning the generic message. *)
Lemma succeeded_run_counterexample :
  first_condition bare_snapshot "status" = Ok (JStr "True")
  /\ first_condition bare_snapshot "reason" = Ok (JStr "Succeeded")
  /\ fst (PipelineRun.has_succeeded (L := sample_lib) sample_run
            (world_of [json_reply bare_snapshot; json_reply bare_snapshot]))
     = Ok true
  /\ fst (PipelineRun.get_error_message (L := sample_lib) sample_run
            (world_of [json_reply bare_snapshot]))
     = Raise (KeyError "annotations").
Proof. repeat split; vm_compute; reflexivity. Qed.

(** A failed step's task_result is reported instead of the generic message. *)
Lemma error_message_of_failed_step :
  PipelineRun.error_message_of
    (L := {| json_loads := fun _ =>
               Ok (JArr [JObj [("key", JStr "task_result"); ("value", JStr "no space left")]]);
             json_dumps := json_dumps (Externals := sample_lib);
             py_str := py_str (Externals := sample_lib);
             strptime_timestamp := strptime_timestamp (Externals := sample_lib);
             urlparse_fragment := urlparse_fragment (Externals := sample_lib);
             parse_qs := parse_qs (Externals := sample_lib);
             kerberos_ccache_init := kerberos_ccache_init (Externals := sample_lib) |})
    (snapshot_of "False" "Failed"
       (Some [("build-1-build",
               JObj [("pipelineTaskName", JStr "build");
                     ("status",
                      JObj [("conditions", JArr [JObj [("status", JStr "False");
                                                       ("reason", JStr "Failed")]]);
                            ("startTime", JStr "2022-03-01T10:00:00Z");
                            ("steps",
                             JArr [JObj [("container", JStr "step-build");
                                         ("terminated",
                                          JObj [("exitCode", JNum 1);
                                                ("message", JStr "[...]")])]])])])]))
  = Ok (Some ("Error in build: no space left;" ++ nl)%string).
Proof. vm_compute. reflexivity. Qed.

(** ** Waiting for the end of a run *)

Lemma waited_unfinished (outs : list (py bool)) :
  waited (Ok true :: outs) = waited outs.
Proof.
  unfold waited. destruct outs as [|r outs]; reflexivity.
Qed.

Lemma wait_loop_step (poll : io bool) (n : nat) (w : world) :
  PipelineRun.wait_loop poll (S n) w
  = match poll w with
    | (Ok true, w1) => PipelineRun.wait_loop poll n (snd (sleep WAIT_RETRY_SECS w1))
    | (Ok false, w1) => (Ok tt, w1)
    | (Raise e, w1) => (Raise e, w1)
    end.
Proof.
  cbn [PipelineRun.wait_loop]. unfold bind.
  destruct (poll w) as [[[|]|e] w1]; reflexivity.
Qed.

(** The loop of wait_for_finish makes at most [n] polls, sleeps after each
    poll that answers "not finished", raises only what a poll raised, and
    makes all [n] polls when every poll answers "not finished". *)
Lemma wait_loop_polls (poll : io bool) (n : nat) :
  forall w,
  exists outs,
    polled poll w outs (snd (PipelineRun.wait_loop poll n w))
    /\ (List.length outs <= n)%nat
    /\ fst (PipelineRun.wait_loop poll n w) = waited outs
    /\ (Forall (eq (Ok true)) outs -> List.length outs = n).
Proof.
  induction n as [|n IH]; intro w.
  - exists []. repeat split; auto. constructor.
  - rewrite wait_loop_step. destruct (poll w) as [[[|]|e] w1] eqn:Hp.
    + destruct (IH (snd (sleep WAIT_RETRY_SECS w1))) as (outs & Hpo & Hlen & Hres & Hall).
      exists (Ok true :: outs). split; [|split; [|split]].
      * eapply polled_unfinished; eassumption.
      * simpl. lia.
      * now rewrite waited_unfinished.
      * intro H. inversion H; subst. simpl. now rewrite Hall.
    + exists [Ok false]. split; [|split; [|split]].
      * apply polled_last with (1 := Hp). discriminate.
      * simpl. lia.
      * reflexivity.
      * intro H. inversion H; subst. discriminate.
    + exists [Raise e]. split; [|split; [|split]].
      * apply polled_last with (1 := Hp). discriminate.
      * simpl. lia.
      * reflexivity.
      * intro H. inversion H; subst. discriminate.
Qed.

(** C9, as amended. wait_for_finish makes at most WAIT_RETRY polls of
    has_not_finished, each poll that answers "not finished" being followed
    by a sleep of WAIT_RETRY_SECS seconds; it returns normally unless a poll
    itself raised, and then raises what that poll raised; when every poll
    answers "not finished" it makes all WAIT_RETRY = 3600 polls and returns
    normally: the budget of 5 hours runs out without an error. *)
Theorem wait_for_finish_bounded (L : Externals) (self : PipelineRun.t) (w : world) :
  exists outs,
    polled (PipelineRun.has_not_finished self) w outs
      (snd (PipelineRun.wait_for_finish self w))
    /\ (List.length outs <= WAIT_RETRY)%nat
    /\ fst (PipelineRun.wait_for_finish self w) = waited outs
    /\ (Forall (eq (Ok true)) outs ->
        List.length outs = WAIT_RETRY
        /\ fst (PipelineRun.wait_for_finish self w) = Ok tt)
    /\ WAIT_RETRY = 3600%nat
    /\ (Z.of_nat WAIT_RETRY * WAIT_RETRY_SECS = 5 * 3600)%Z.
Proof.
  destruct (wait_loop_polls (PipelineRun.has_not_finished self) WAIT_RETRY w)
    as (outs & Hpo & Hlen & Hres & Hall).
  exists outs. unfold PipelineRun.wait_for_finish.
  split; [exact Hpo|]. split; [exact Hlen|]. split; [exact Hres|]. split.
  - intro H. split; [now apply Hall|]. rewrite Hres. unfold waited.
    clear - H. induction H as [|r outs <- _ IH]; [reflexivity|].
    destruct outs; [reflexivity | exact IH].
  - split; vm_compute; reflexivity.
Qed.

(** A run that stays (Unknown, Running): 3600 polls of two reads each, 3600
    sleeps of 5 seconds, and a normal return. *)
Lemma wait_for_finish_exhausts_quietly :
  let run := PipelineRun.wait_for_finish (L := sample_lib) sample_run
               (world_of (repeat (json_reply running_snapshot) 7300)) in
  fst run = Ok tt
  /\ slept (snd run) = repeat WAIT_RETRY_SECS 3600
  /\ List.length (sent (snd run)) = 7200%nat.
Proof.
  vm_compute. repeat split; reflexivity.
Qed.

(** C9, as stated, fails: when a read of the run's status fails during a
    poll, wait_for_finish does not return normally, it raises. *)
Lemma wait_for_finish_poll_fails :
  fst (PipelineRun.wait_for_finish (L := sample_lib) sample_run
         (world_of [json_reply running_snapshot; json_reply running_snapshot;
                    Raise (OsbsException "connection reset" (Some CauseConnectionError))]))
  = Raise (OsbsException "connection reset" (Some CauseConnectionError)).
Proof.
  vm_compute. reflexivity.
Qed.

(** ** Pod logs and the container list *)

Section PodLogs.
Context {L : Externals}.
Variable self : Pod.t.

(** C10. For a Pod constructed without containers: with follow or wait set,
    running the streaming generator yields no line and ends with an
    exception, the one wait_for_start raised or else the TypeError of
    iterating None; without follow and wait, get_logs is the single fetch of
    the pod's log, without a container argument, and returns its text when
    the fetch is answered ok.  With a list of containers, the streaming
    generator iterates it after wait_for_start, and for the empty list it
    ends normally without a line. *)
Theorem get_logs_needs_containers (fuel : nat) (w : world) :
  (Pod.containers self = None ->
   (forall follow wait,
       orb follow wait = true ->
       exists e w',
         Pod.get_logs self fuel follow wait w = ([], Raise e, w')
         /\ (Pod.wait_for_start self w = (Raise e, w')
             \/ (exists pod, Pod.wait_for_start self w = (Ok pod, w'))
                /\ e = TypeError "'NoneType' object is not iterable"))
   /\ (forall r w1 text,
          Openshift.get (Pod.os self) (Pod.log_url self []) true [] [] w = (Ok r, w1) ->
          status_code r = 200 \/ status_code r = 201 ->
          content_utf8 r = Ok text ->
          Pod.get_logs self fuel false false w = ([], Ok (Some (LogText text)), w1)))
  /\ (forall cs,
         Pod.containers self = Some cs ->
         Pod._get_logs_stream self fuel w
         = match Pod.wait_for_start self w with
           | (Raise e, w1) => ([], Raise e, w1)
           | (Ok _, w1) => Pod.each_container self fuel cs w1
           end)
  /\ (Pod.containers self = Some [] ->
      forall pod w1 follow wait,
        orb follow wait = true ->
        Pod.wait_for_start self w = (Ok pod, w1) ->
        Pod.get_logs self fuel follow wait w = ([], Ok (Some LogStream), w1)).
Proof.
  split; [|split].
  - intro Hnone. split.
    + intros follow wait Hf. unfold Pod.get_logs, Pod._get_logs_stream.
      rewrite Hf, Hnone.
      destruct (Pod.wait_for_start self w) as [[pod|e] w1]; eauto 8.
    + intros r w1 text Hget Hok Htext. unfold Pod.get_logs. simpl. rewrite Hnone.
      unfold Pod._get_logs_no_container, bind. rewrite Hget.
      rewrite (check_response_ok _ _ Hok). unfold lift. now rewrite Htext.
  - intros cs Hcs. unfold Pod._get_logs_stream. rewrite Hcs.
    now destruct (Pod.wait_for_start self w) as [[pod|e] w1].
  - intros Hcs pod w1 follow wait Hf Hw. unfold Pod.get_logs, Pod._get_logs_stream.
    now rewrite Hf, Hw, Hcs.
Qed.

End PodLogs.

(** C10, sample: the pod is Running, and has no container list. *)
Lemma get_logs_without_containers :
  fst (Pod.get_logs (L := sample_lib) bare_pod 5 true false
         (world_of [watch_reply [event_line]; json_reply pod_running;
                    log_reply ["cloning"] "cloning"]))
  = ([], Raise (TypeError "'NoneType' object is not iterable"))
  /\ fst (Pod.get_logs (L := sample_lib) bare_pod 5 false false
            (world_of [log_reply [] "cloning"]))
     = ([], Ok (Some (LogText "cloning")))
  /\ fst (Pod.get_logs (L := sample_lib) sample_pod 5 true false
            (world_of [watch_reply [event_line]; json_reply pod_running;
                       log_reply ["cloning"] "cloning"]))
     = (["cloning"], Ok (Some LogStream)).
Proof. vm_compute. repeat split; reflexivity. Qed.

(** ** Requests and credentials *)

Section Requests.
Context {L : Externals}.
Variable self : Openshift.t.






(** X3. With authentication on and no token yet, when the redirect carries
    an access_token the exchange stores it in [self.token] and the request
    that needed it goes out as one session call carrying it as Bearer
    token. *)
Theorem token_exchanged_then_sent (v : verb) (u : url) (hdrs : list (string * string))
    (kwargs : list (string * json)) (w w1 : world) (r : response)
    (location tok : string) (more : list string) :
  Openshift.use_auth self = true ->
  token w = None ->
  half_certificate self = false ->
  Openshift.redirect_request self w = (Ok r, w1) ->
  header "location" (headers r) = Some location ->
  assoc "access_token" (parse_qs (urlparse_fragment location)) = Some (tok :: more) ->
  tok <> "" ->
  exists rq,
    Openshift.call self (Openshift.get_oauth_token self) v u true hdrs kwargs w
    = session rq (snd (set_token tok w1))
    /\ rq_verb rq = v /\ rq_url rq = u
    /\ assoc "Authorization" (rq_headers rq) = Some ("Bearer " ++ tok)%string
    /\ token (snd (session rq (snd (set_token tok w1)))) = Some tok.
Proof.
  intros Hauth Htok Hcert Hr Hloc Hfrag Hne.
  assert (Hgiven : given (Some tok) = true).
  { simpl. destruct (String.eqb_spec tok ""); [contradiction | reflexivity]. }
  assert (Hx : Openshift.get_oauth_token self w = (Ok tok, snd (set_token tok w1))).
  { unfold Openshift.get_oauth_token, bind. rewrite Hr.
    unfold Openshift.token_of_redirect. now rewrite Hloc, Hfrag. }
  unfold half_certificate in Hcert.
  unfold Openshift.call, Openshift._request_args, bind, get_token, ret, raise.
  rewrite Hauth. cbn [andb]. cbv beta iota. rewrite Htok. cbv beta iota.
  rewrite Hx. cbn [set_token snd token]. cbv beta iota. rewrite Hgiven.
  destruct (given (Openshift.client_cert self)), (given (Openshift.client_key self));
    simpl in Hcert; try discriminate; cbn [orb andb]; cbv beta iota;
    (eexists; split; [reflexivity|]; cbn [rq_verb rq_url rq_headers fst some_or_empty];
     repeat split; try apply assoc_dict_set; apply session_token).
Qed.

End Requests.



(** X3, witness: the redirect carries the token "s3cret". *)
Lemma token_exchanged_then_sent_witness :
  exists rq,
    Openshift.call with_auth (Openshift.get_oauth_token (L := sample_lib) with_auth) GET
      (Openshift.get_url with_auth "apis" API_VERSION "pipelineruns" "build-1")
      true [] [] exchange_world
    = session rq
        (snd (set_token "s3cret"
                (snd (Openshift.redirect_request (L := sample_lib) with_auth
                        exchange_world))))
    /\ rq_verb rq = GET
    /\ rq_url rq = Openshift.get_url with_auth "apis" API_VERSION "pipelineruns" "build-1"
    /\ assoc "Authorization" (rq_headers rq) = Some ("Bearer " ++ "s3cret")%string
    /\ token (snd (session rq
                (snd (set_token "s3cret"
                        (snd (Openshift.redirect_request (L := sample_lib) with_auth
                                exchange_world))))))
       = Some "s3cret".
Proof.
  apply (token_exchanged_then_sent (L := sample_lib) with_auth GET _ [] []
           exchange_world _
           (Response 302 [("Location", token_location)] "" (Ok "") (Raise ValueError)
              [] None)
           token_location "s3cret" []); try reflexivity. discriminate.
Defined.

(** ** The bound of the watch *)

Section Sleeps.
Context {L : Externals}.
Variable self : Openshift.t.

Lemma session_slept (rq : request) (w : world) :
  slept (snd (session rq w)) = slept w.
Proof. unfold session. now destruct (replies w). Qed.

(** A request sleeps only if its token exchange does. *)
Lemma call_slept (exchange : io string) (v : verb) (u : url) (with_auth : bool)
    (hdrs : list (string * string)) (kwargs : list (string * json)) (w : world) :
  (forall w0, slept (snd (exchange w0)) = slept w0) ->
  slept (snd (Openshift.call self exchange v u with_auth hdrs kwargs w)) = slept w.
Proof.
  intro Hex.
  unfold Openshift.call, Openshift._request_args, bind, get_token, ret, raise.
  destruct with_auth, (Openshift.use_auth self); cbn [andb]; cbv beta iota;
    try (destruct (token w) as [t|] eqn:Htok; cbv beta iota;
         [rewrite Htok
         |specialize (Hex w); destruct (exchange w) as [[x|e] w1]; cbn [snd] in Hex;
          [|exact Hex]]);
    repeat match goal with
           | |- context [if ?b then _ else _] => destruct b
           end;
    cbv beta iota; cbn [snd]; try reflexivity; try assumption;
    rewrite session_slept; try reflexivity; assumption.
Qed.

Lemma get_oauth_token_slept (w : world) :
  slept (snd (Openshift.get_oauth_token self w)) = slept w.
Proof.
  assert (Hplain : forall kwargs w0,
             slept (snd (Openshift.call self (ret "") GET (Openshift.oauth_url self)
                           false [] kwargs w0)) = slept w0).
  { intros. now apply call_slept. }
  assert (Hr : slept (snd (Openshift.redirect_request self w)) = slept w).
  { unfold Openshift.redirect_request.
    destruct (Openshift.use_auth self); [|apply Hplain].
    destruct (given (Openshift.username self) && given (Openshift.password self))%bool;
      [apply Hplain|].
    destruct (Openshift.use_kerberos self); [|apply Hplain].
    unfold bind. destruct (given (Openshift.kerberos_keytab self)).
    - destruct (negb (given (Openshift.kerberos_principal self))); [reflexivity|].
      unfold lift. destruct (kerberos_ccache_init _ _ _); [apply Hplain | reflexivity].
    - unfold ret. apply Hplain. }
  unfold Openshift.get_oauth_token, bind.
  destruct (Openshift.redirect_request self w) as [[r|e] w1]; cbn [snd] in *; [|exact Hr].
  unfold Openshift.token_of_redirect.
  destruct (header "location" (headers r)); [|exact Hr].
  destruct (assoc "access_token" _) as [[|tok more]|]; exact Hr.
Qed.

Lemma get_slept (u : url) (with_auth : bool) (hdrs : list (string * string))
    (kwargs : list (string * json)) (w : world) :
  slept (snd (Openshift.get self u with_auth hdrs kwargs w)) = slept w.
Proof. apply call_slept. apply get_oauth_token_slept. Qed.

Lemma check_response_world (r : response) (w : world) :
  snd (check_response r w) = w.
Proof. unfold check_response, ret, raise. now destruct (_ || _)%bool. Qed.

Lemma fresh_copy_slept (get_url : url) (w : world) :
  slept (snd (Openshift.fresh_copy self get_url w)) = slept w.
Proof.
  unfold Openshift.fresh_copy, bind, lift.
  pose proof (get_slept get_url true [] [] w) as Hg.
  destruct (Openshift.get self get_url true [] [] w) as [[r|e] w1]; cbn [snd] in *;
    [|exact Hg].
  pose proof (check_response_world r w1) as Hc.
  destruct (check_response r w1) as [[[]|e] w2]; cbn [snd] in *; now subst.
Qed.

Context {Y S R : Type}.
Variable body : S -> json -> gen Y (flow S R).
Variables watch_url get_url : url.
Hypothesis body_slept : forall s snapshot w, slept (snd (body s snapshot w)) = slept w.

Lemma on_lines_slept (ls : list line) (fin : option exn) :
  forall s w,
    slept (snd (Openshift.on_lines self body get_url s ls fin w)) = slept w.
Proof.
  induction ls as [|l ls IH]; intros s w; cbn [Openshift.on_lines].
  - now destruct fin.
  - destruct (loads l) as [j|e]; [|destruct e; try reflexivity; apply IH].
    destruct (py_in "object" j) as [[|]|]; try reflexivity; [|apply IH].
    destruct (py_in "type" j) as [[|]|]; try reflexivity; [|apply IH].
    pose proof (fresh_copy_slept get_url w) as Hf.
    destruct (Openshift.fresh_copy self get_url w) as [[snapshot|e] w1]; cbn [snd] in *;
      [|exact Hf].
    pose proof (body_slept s snapshot w1) as Hb.
    destruct (body s snapshot w1) as [[ys [[s1|r]|e]] w2]; cbn [snd] in *;
      try congruence.
    specialize (IH s1 w2).
    destruct (Openshift.on_lines self body get_url s1 ls fin w2) as [[ys' t] w3].
    cbn [snd] in *. congruence.
Qed.

Lemma attempt_slept (s : S) (w : world) :
  slept (snd (Openshift.attempt self body watch_url get_url s w)) = slept w.
Proof.
  unfold Openshift.attempt, bind, ret.
  pose proof (get_slept watch_url true [("Connection", "close")]
                [("stream", JBool true)] w) as Hg.
  destruct (Openshift.get self watch_url true _ _ w) as [[r|e] w1]; cbn [snd] in *;
    [|exact Hg].
  pose proof (check_response_world r w1) as Hc.
  destruct (check_response r w1) as [[[]|e] w2]; cbn [snd] in *; subst; [|exact Hg].
  now rewrite on_lines_slept.
Qed.

(** Each attempt that does not leave the loop is followed by one sleep of
    WATCH_RETRY_SECS seconds; a loop that runs out of attempts has slept
    after every one of them. *)
Lemma watch_loop_sleeps (n : nat) :
  forall bad_responses s w,
  exists k,
    (k <= n)%nat
    /\ slept (snd (Openshift.watch_loop self body watch_url get_url n bad_responses s w))
       = slept w ++ repeat WATCH_RETRY_SECS k
    /\ (forall s',
          snd (fst (Openshift.watch_loop self body watch_url get_url n bad_responses s w))
          = Ok (Next s') -> k = n).
Proof.
  induction n as [|n IH]; intros bad s w; cbn [Openshift.watch_loop].
  - exists 0%nat. cbn [snd repeat]. rewrite app_nil_r. auto.
  - pose proof (attempt_slept s w) as Ha.
    destruct (Openshift.attempt self body watch_url get_url s w) as [[ys t] w1].
    cbn [snd] in Ha.
    assert (Hstop : forall r : py (flow S R),
               (forall s', r <> Ok (Next s')) ->
               exists k, (k <= Datatypes.S n)%nat
                         /\ slept (snd (ys, r, w1)) = slept w ++ repeat WATCH_RETRY_SECS k
                         /\ (forall s', snd (fst (ys, r, w1)) = Ok (Next s') ->
                                        k = Datatypes.S n)).
    { intros r Hr. exists 0%nat. cbn [snd fst repeat]. rewrite app_nil_r.
      repeat split; [lia | assumption |]. intros s' H. now destruct (Hr s'). }
    assert (Hgo : forall bad' s1,
               exists k, (k <= Datatypes.S n)%nat
                 /\ slept (snd (match Openshift.watch_loop self body watch_url get_url n
                                        bad' s1 (snd (Openshift.log_and_sleep w1)) with
                                | (ys', r, w2) => (ys ++ ys', r, w2)
                                end))
                    = slept w ++ repeat WATCH_RETRY_SECS k
                 /\ (forall s',
                       snd (fst (match Openshift.watch_loop self body watch_url get_url n
                                         bad' s1 (snd (Openshift.log_and_sleep w1)) with
                                 | (ys', r, w2) => (ys ++ ys', r, w2)
                                 end)) = Ok (Next s') -> k = Datatypes.S n)).
    { intros bad' s1.
      destruct (IH bad' s1 (snd (Openshift.log_and_sleep w1))) as (k & Hk & Hs & Hn).
      destruct (Openshift.watch_loop _ _ _ _ n bad' s1 _) as [[ys' r] w2].
      cbn [snd fst] in *. exists (Datatypes.S k). repeat split; [lia | |].
      - rewrite Hs. unfold Openshift.log_and_sleep, sleep. cbn [snd slept].
        rewrite Ha, <- app_assoc. reflexivity.
      - intros s' H. now rewrite (Hn s' H). }
    destruct t as [s1|[r|e]|s1 e].
    + apply Hgo.
    + apply Hstop. discriminate.
    + apply Hstop. discriminate.
    + destruct (Openshift.on_exception bad e) as [bad' [e'|]].
      * apply Hstop. discriminate.
      * apply Hgo.
Qed.

End Sleeps.

(** X4. Whatever the cluster answers, one run of watch_resource sleeps at
    most WATCH_RETRY = 20 times, WATCH_RETRY_SECS = 5 seconds each time and
    nowhere else; and a run that ends without an exception has used all 20
    attempts and slept after each of them. *)
Theorem watch_resource_sleeps (L : Externals) (self : Openshift.t)
    (api_path api_version resource_type resource_name : string)
    (request_args : list (string * json)) (w : world) :
  exists k,
    (k <= WATCH_RETRY)%nat
    /\ slept (snd (Openshift.snapshots self api_path api_version resource_type
                     resource_name request_args w))
       = slept w ++ repeat WATCH_RETRY_SECS k
    /\ (snd (fst (Openshift.snapshots self api_path api_version resource_type
                    resource_name request_args w)) = Ok tt ->
        k = WATCH_RETRY).
Proof.
  unfold Openshift.snapshots, Openshift.watch_resource.
  destruct (watch_loop_sleeps self Openshift.collect
              (Openshift.watch_url self api_path api_version resource_type resource_name
                 request_args)
              (Openshift.get_url self api_path api_version resource_type resource_name)
              (fun _ _ _ => eq_refl) WATCH_RETRY 0%nat tt w) as (k & Hk & Hs & Hn).
  exists k.
  destruct (Openshift.watch_loop _ _ _ _ _ _ _ _) as [[ys [[[]|r]|e]] w'];
    cbn [snd fst] in *; repeat split; try assumption; try discriminate.
  - intros _. now apply (Hn tt).
  - destruct r.
Qed.

(** ** Waiting for a start *)

Section Returned.
Context {L : Externals} {Y S R : Type}.
Variable self : Openshift.t.
Variable body : S -> json -> gen Y (flow S R).
Variables watch_url get_url : url.

(** A value with which the consumer left the loop was returned by its body
    on a snapshot fetched from the cluster. *)
Lemma on_lines_returned (ls : list line) (fin : option exn) :
  forall s w ys r w',
    Openshift.on_lines self body get_url s ls fin w = (ys, Openshift.Abandoned (Ok r), w') ->
    exists s0 snapshot w0 w1 ys0 w2,
      Openshift.fresh_copy self get_url w0 = (Ok snapshot, w1)
      /\ body s0 snapshot w1 = (ys0, Ok (Return r), w2).
Proof.
  induction ls as [|l ls IH]; intros s w ys r w'; cbn [Openshift.on_lines].
  - destruct fin; discriminate.
  - destruct (loads l) as [j|x].
    2:{ destruct x; try discriminate; apply IH. }
    destruct (py_in "object" j) as [[|]|]; try discriminate; [|apply IH].
    destruct (py_in "type" j) as [[|]|]; try discriminate; [|apply IH].
    destruct (Openshift.fresh_copy self get_url w) as [[snapshot|x] w1] eqn:Hf;
      [|discriminate].
    destruct (body s snapshot w1) as [[ys1 [[s1|r1]|x]] w2] eqn:Hb.
    + destruct (Openshift.on_lines self body get_url s1 ls fin w2) as [[ys2 t] w3] eqn:Hrec.
      intro H. injection H as _ -> _. eapply IH. exact Hrec.
    + intro H. injection H as _ <- _. eauto 10.
    + discriminate.
Qed.

Lemma watch_loop_returned (n : nat) :
  forall bad_responses s w ys r w',
    Openshift.watch_loop self body watch_url get_url n bad_responses s w
    = (ys, Ok (Return r), w') ->
    exists s0 snapshot w0 w1 ys0 w2,
      Openshift.fresh_copy self get_url w0 = (Ok snapshot, w1)
      /\ body s0 snapshot w1 = (ys0, Ok (Return r), w2).
Proof.
  induction n as [|n IH]; intros bad s w ys r w'; cbn [Openshift.watch_loop].
  - discriminate.
  - destruct (Openshift.attempt self body watch_url get_url s w) as [[ys1 t] w1] eqn:Hatt.
    destruct t as [s1|[r1|x]|s1 x].
    + destruct (Openshift.watch_loop _ _ _ _ n bad s1 _) as [[ys2 r2] w2] eqn:Hrec.
      intro H. injection H as _ -> _. eapply IH. exact Hrec.
    + intro H. injection H as _ <- _.
      unfold Openshift.attempt in Hatt.
      destruct (bind _ _ w) as [[response|x'] w0]; [|discriminate].
      eapply on_lines_returned. exact Hatt.
    + discriminate.
    + destruct (Openshift.on_exception bad x) as [bad' [x'|]]; [discriminate|].
      destruct (Openshift.watch_loop _ _ _ _ n bad' s1 _) as [[ys2 r2] w2] eqn:Hrec.
      intro H. injection H as _ -> _. eapply IH. exact Hrec.
Qed.

End Returned.

Lemma or_json_eq_str (j : json) (a b : string) :
  (json_eq_str j a || json_eq_str j b)%bool = true -> j = JStr a \/ j = JStr b.
Proof.
  intro H. apply orb_true_iff in H. destruct H as [H|H];
    apply json_eq_str_true in H; auto.
Qed.

(** X5. What PipelineRun.wait_for_start returns is None, when the watch gave
    no started snapshot before it ended, or a snapshot fetched from the
    cluster whose first condition is 'True', 'False', or
    ('Unknown', 'Running'). *)
Theorem pipeline_run_wait_for_start_started {L : Externals} (self : PipelineRun.t)
    (w w' : world) (pipeline_run : json) :
  PipelineRun.wait_for_start self w = (Ok pipeline_run, w') ->
  pipeline_run = JNull \/ run_started pipeline_run.
Proof.
  unfold PipelineRun.wait_for_start, bind, silent, ret, Openshift.watch_resource.
  destruct (Openshift.watch_loop _ _ _ _ _ _ _ _) as [[ys [[[]|r]|e]] w1] eqn:Hrun;
    intro H; try discriminate; injection H as <- _; [now left|].
  right. apply watch_loop_returned in Hrun.
  destruct Hrun as (s0 & snapshot & w0 & w2 & ys0 & w3 & _ & Hb).
  unfold pure_body in Hb. injection Hb as _ Hb _.
  unfold PipelineRun.started in Hb.
  destruct (first_condition snapshot "status") as [status|e] eqn:Hs; simpl in Hb.
  2:{ destruct e; discriminate. }
  destruct (first_condition snapshot "reason") as [reason|e] eqn:Hr; simpl in Hb.
  2:{ destruct e; discriminate. }
  destruct (_ || _)%bool eqn:Hc; [|discriminate]. injection Hb as <-.
  exists status, reason. repeat split; try assumption.
  apply orb_true_iff in Hc. destruct Hc as [Hc|Hc].
  - apply or_json_eq_str in Hc. tauto.
  - apply andb_true_iff in Hc. destruct Hc as [H1 H2].
    apply json_eq_str_true in H1, H2. tauto.
Qed.

(** X6. What Pod.wait_for_start returns is None, when the watch ended
    first, or a pod document fetched from the cluster whose phase is
    Running, Succeeded or Failed. *)
Theorem pod_wait_for_start_started {L : Externals} (self : Pod.t)
    (w w' : world) (pod : json) :
  Pod.wait_for_start self w = (Ok pod, w') ->
  pod = JNull \/ pod_started pod.
Proof.
  unfold Pod.wait_for_start, bind, silent, ret, Openshift.watch_resource.
  destruct (Openshift.watch_loop _ _ _ _ _ _ _ _) as [[ys [[[]|r]|e]] w1] eqn:Hrun;
    intro H; try discriminate; injection H as <- _; [now left|].
  right. apply watch_loop_returned in Hrun.
  destruct Hrun as (s0 & snapshot & w0 & w2 & ys0 & w3 & _ & Hb).
  unfold pure_body in Hb. injection Hb as _ Hb _.
  unfold Pod.started in Hb.
  destruct (py_bind _ _) as [phase|e] eqn:Hp.
  2:{ destruct e; discriminate. }
  destruct (_ || _)%bool eqn:Hc; [|discriminate]. injection Hb as <-.
  exists phase. split; [exact Hp|].
  apply orb_true_iff in Hc. destruct Hc as [Hc|Hc].
  - apply json_eq_str_true in Hc. tauto.
  - apply or_json_eq_str in Hc. tauto.
Qed.

(** X5, witness: the run is running at the second event. *)
Lemma pipeline_run_wait_for_start_started_witness :
  running_snapshot = JNull \/ run_started running_snapshot.
Proof.
  apply (pipeline_run_wait_for_start_started (L := sample_lib) sample_run
           (world_of [watch_reply [event_line; event_line];
                      json_reply (snapshot_of "Unknown" "Started" None);
                      json_reply running_snapshot])
           (snd (PipelineRun.wait_for_start (L := sample_lib) sample_run
                   (world_of [watch_reply [event_line; event_line];
                              json_reply (snapshot_of "Unknown" "Started" None);
                              json_reply running_snapshot])))).
  reflexivity.
Defined.

(** X6, witness: the pod is Pending, then Running. *)
Lemma pod_wait_for_start_started_witness :
  pod_running = JNull \/ pod_started pod_running.
Proof.
  apply (pod_wait_for_start_started (L := sample_lib) sample_pod
           (world_of [watch_reply [event_line; event_line];
                      json_reply (JObj [("status", JObj [("phase", JStr "Pending")])]);
                      json_reply pod_running])
           (snd (Pod.wait_for_start (L := sample_lib) sample_pod
                   (world_of [watch_reply [event_line; event_line];
                              json_reply (JObj [("status", JObj [("phase", JStr "Pending")])]);
                              json_reply pod_running])))).
  reflexivity.
Defined.

(** X14. What TaskRun.wait_for_start returns is None, when the watch gave
    no started task run before it ended, or a task run whose first
    condition is 'True', 'False', or ('Unknown', 'Running'). *)
Theorem task_run_wait_for_start_started {L : Externals} (self : TaskRun.t)
    (w w' : world) (task_run : json) :
  TaskRun.wait_for_start self w = (Ok task_run, w') ->
  task_run = JNull \/ run_started task_run.
Proof.
  unfold TaskRun.wait_for_start, bind, silent, ret, Openshift.watch_resource.
  destruct (Openshift.watch_loop _ _ _ _ _ _ _ _) as [[ys [[[]|r]|e]] w1] eqn:Hrun;
    intro H; try discriminate; injection H as <- _; [now left|].
  right. apply watch_loop_returned in Hrun.
  destruct Hrun as (s0 & snapshot & w0 & w2 & ys0 & w3 & _ & Hb).
  unfold pure_body in Hb. injection Hb as _ Hb _.
  unfold TaskRun.started in Hb.
  destruct (first_condition snapshot "status") as [status|e] eqn:Hs; simpl in Hb.
  2:{ destruct e; discriminate. }
  destruct (first_condition snapshot "reason") as [reason|e] eqn:Hr; simpl in Hb.
  2:{ destruct e; discriminate. }
  destruct (_ || _)%bool eqn:Hc; [|discriminate]. injection Hb as <-.
  exists status, reason. repeat split; try assumption.
  apply orb_true_iff in Hc. destruct Hc as [Hc|Hc].
  - apply or_json_eq_str in Hc. tauto.
  - apply andb_true_iff in Hc. destruct Hc as [H1 H2].
    apply json_eq_str_true in H1, H2. tauto.
Qed.

(** X14, witness: the task run is pending, then running. *)
Lemma task_run_wait_for_start_started_witness :
  running_snapshot = JNull \/ run_started running_snapshot.
Proof.
  apply (task_run_wait_for_start_started (L := sample_lib) sample_task_run
           (world_of [watch_reply [event_line; event_line];
                      json_reply (snapshot_of "Unknown" "Pending" None);
                      json_reply running_snapshot])
           (snd (TaskRun.wait_for_start (L := sample_lib) sample_task_run
                   (world_of [watch_reply [event_line; event_line];
                              json_reply (snapshot_of "Unknown" "Pending" None);
                              json_reply running_snapshot])))).
  reflexivity.
Defined.

(** ** Order of the task runs *)

Section SortByKey.
Context {A : Type}.

Lemma insert_by_key_perm (x : Z * A) (l : list (Z * A)) :
  Permutation (x :: l) (insert_by_key x l).
Proof.
  induction l as [|y l IH]; simpl; [reflexivity|].
  destruct (Z.ltb (fst x) (fst y)); [reflexivity|].
  rewrite perm_swap. now constructor.
Qed.

Lemma fold_insert_perm (l : list (Z * A)) :
  forall acc, Permutation (acc ++ l)
                (fold_left (fun acc x => insert_by_key x acc) l acc).
Proof.
  induction l as [|x l IH]; intro acc; simpl.
  - now rewrite app_nil_r.
  - rewrite <- IH. rewrite <- insert_by_key_perm. simpl.
    symmetry. apply Permutation_middle.
Qed.

Lemma sort_by_key_perm (l : list (Z * A)) : Permutation l (sort_by_key l).
Proof. exact (fold_insert_perm l []). Qed.

Lemma insert_by_key_sorted (x : Z * A) (l : list (Z * A)) :
  StronglySorted key_le l -> StronglySorted key_le (insert_by_key x l).
Proof.
  induction 1 as [|y l Hs IH Hy]; simpl.
  - repeat constructor.
  - destruct (Z.ltb_spec (fst x) (fst y)) as [Hlt|Hge].
    + constructor; [now constructor|]. constructor; [unfold key_le; lia|].
      eapply Forall_impl; [|exact Hy]. unfold key_le. intros; lia.
    + constructor; [exact IH|]. apply insert_by_key_Forall; [exact Hge | exact Hy].
Qed.

Lemma fold_insert_sorted (l : list (Z * A)) :
  forall acc, StronglySorted key_le acc ->
              StronglySorted key_le (fold_left (fun acc x => insert_by_key x acc) l acc).
Proof.
  induction l as [|x l IH]; intros acc Hacc; simpl; [assumption|].
  apply IH. now apply insert_by_key_sorted.
Qed.

Lemma sort_by_key_sorted (l : list (Z * A)) : StronglySorted key_le (sort_by_key l).
Proof. apply fold_insert_sorted. constructor. Qed.

Lemma filter_above (k : Z) (l : list (Z * A)) :
  Forall (fun z => k < fst z) l -> filter (same_key k) l = [].
Proof.
  induction 1 as [|y l Hy _ IH]; simpl; [reflexivity|].
  unfold same_key at 1. destruct (Z.eqb_spec (fst y) k); [lia | exact IH].
Qed.

(** An element goes in after the elements of its own key. *)
Lemma insert_by_key_stable (k : Z) (x : Z * A) (l : list (Z * A)) :
  StronglySorted key_le l ->
  filter (same_key k) (insert_by_key x l)
  = if same_key k x then filter (same_key k) l ++ [x] else filter (same_key k) l.
Proof.
  induction 1 as [|y l Hs IH Hy]; simpl.
  - now destruct (same_key k x).
  - destruct (Z.ltb_spec (fst x) (fst y)) as [Hlt|Hge].
    + cbn [filter]. destruct (same_key k x) eqn:Hx; [|reflexivity].
      unfold same_key in Hx. apply Z.eqb_eq in Hx.
      assert (Hnone : filter (same_key k) (y :: l) = []).
      { apply filter_above. constructor; [lia|].
        eapply Forall_impl; [|exact Hy]. unfold key_le. intros; lia. }
      cbn [filter] in Hnone. now rewrite Hnone.
    + cbn [filter]. rewrite IH.
      destruct (same_key k y), (same_key k x); reflexivity.
Qed.

Lemma fold_insert_stable (k : Z) (l : list (Z * A)) :
  forall acc,
    StronglySorted key_le acc ->
    filter (same_key k) (fold_left (fun acc x => insert_by_key x acc) l acc)
    = filter (same_key k) acc ++ filter (same_key k) l.
Proof.
  induction l as [|x l IH]; intros acc Hacc; simpl.
  - now rewrite app_nil_r.
  - rewrite IH by now apply insert_by_key_sorted.
    rewrite insert_by_key_stable by assumption.
    destruct (same_key k x); [now rewrite <- app_assoc | reflexivity].
Qed.

Lemma sort_by_key_stable (k : Z) (l : list (Z * A)) :
  filter (same_key k) (sort_by_key l) = filter (same_key k) l.
Proof. apply (fold_insert_stable k l []). constructor. Qed.

End SortByKey.

Section SortedTaskRuns.
Context {L : Externals}.

Lemma keyed_items (items : list (string * json)) :
  forall keyed,
    map_py (fun x => k <~ start_time x ;; Ok (k, x)) items = Ok keyed ->
    map snd keyed = items
    /\ Forall (fun kx => start_time (snd kx) = Ok (fst kx)) keyed.
Proof.
  induction items as [|x items IH]; intros keyed H; simpl in H.
  - injection H as <-. split; constructor.
  - apply py_bind_ok in H. destruct H as (kx & Hkx & H).
    apply py_bind_ok in H. destruct H as (rest & Hrest & H). injection H as <-.
    apply py_bind_ok in Hkx. destruct Hkx as (k & Hk & Hkx). injection Hkx as <-.
    destruct (IH _ Hrest) as [Hm Hf]. simpl. split; [now rewrite Hm | now constructor].
Qed.

Lemma keys_of_keyed (keyed : list (Z * (string * json))) :
  Forall (fun kx => start_time (snd kx) = Ok (fst kx)) keyed ->
  map_py start_time (map snd keyed) = Ok (map fst keyed).
Proof.
  induction 1 as [|kx keyed Hk _ IH]; simpl; [reflexivity|].
  now rewrite Hk, IH.
Qed.

Lemma filter_keyed (k : Z) (keyed : list (Z * (string * json))) :
  Forall (fun kx => start_time (snd kx) = Ok (fst kx)) keyed ->
  filter (starts_at k) (map snd keyed) = map snd (filter (same_key k) keyed).
Proof.
  induction 1 as [|kx keyed Hk _ IH]; simpl; [reflexivity|].
  unfold starts_at at 1, same_key at 1. rewrite Hk.
  destruct (Z.eqb (fst kx) k); simpl; now rewrite IH.
Qed.

(** X7. When get_sorted_task_runs returns, its result holds the task runs
    of the dict, each once, in ascending order of start time, and task runs
    with the same start time in the order the dict had them. *)
Theorem get_sorted_task_runs_sorted (task_runs : json)
    (items sorted : list (string * json)) :
  dict_items task_runs = Ok items ->
  get_sorted_task_runs task_runs = Ok sorted ->
  Permutation items sorted
  /\ (exists keys, map_py start_time sorted = Ok keys /\ StronglySorted Z.le keys)
  /\ (forall k, filter (starts_at k) sorted = filter (starts_at k) items).
Proof.
  intros Hitems Hs. unfold get_sorted_task_runs in Hs. rewrite Hitems in Hs.
  simpl in Hs. apply py_bind_ok in Hs. destruct Hs as (keyed & Hk & Hs).
  injection Hs as <-. destruct (keyed_items _ _ Hk) as [Hm Hf].
  assert (Hfs : Forall (fun kx => start_time (snd kx) = Ok (fst kx)) (sort_by_key keyed))
    by now apply sort_by_key_Forall.
  split; [|split].
  - rewrite <- Hm. apply Permutation_map. apply sort_by_key_perm.
  - exists (map fst (sort_by_key keyed)). split; [now apply keys_of_keyed|].
    pose proof (sort_by_key_sorted keyed) as Hsorted.
    induction Hsorted as [|a l Hl IH Ha]; simpl; constructor.
    + apply IH. now inversion Hfs.
    + apply Forall_map. exact Ha.
  - intro k. rewrite <- Hm, !filter_keyed by assumption.
    now rewrite sort_by_key_stable.
Qed.

(** A task run without a start time makes the sort, and so its callers,
    raise KeyError. *)
Lemma get_sorted_task_runs_needs_start_time (name : string) (tr st : json)
    (rest : list (string * json)) :
  getitem tr "status" = Ok st ->
  getitem st "startTime" = Raise (KeyError "startTime") ->
  get_sorted_task_runs (JObj ((name, tr) :: rest)) = Raise (KeyError "startTime").
Proof.
  intros Hst Hk. unfold get_sorted_task_runs. simpl.
  unfold start_time. simpl. now rewrite Hst; simpl; rewrite Hk.
Qed.

End SortedTaskRuns.

(** X7, witness: the later task run comes first in the dict. *)
Lemma get_sorted_task_runs_sorted_witness :
  Permutation
    [("build-1-build", started_at "build" "2022-03-01T10:05:00Z");
     ("build-1-clone", started_at "clone" "2022-03-01T10:00:00Z")]
    [("build-1-clone", started_at "clone" "2022-03-01T10:00:00Z");
     ("build-1-build", started_at "build" "2022-03-01T10:05:00Z")]
  /\ (exists keys,
        map_py (start_time (L := timed_lib))
          [("build-1-clone", started_at "clone" "2022-03-01T10:00:00Z");
           ("build-1-build", started_at "build" "2022-03-01T10:05:00Z")] = Ok keys
        /\ StronglySorted Z.le keys)
  /\ (forall k,
        filter (starts_at (L := timed_lib) k)
          [("build-1-clone", started_at "clone" "2022-03-01T10:00:00Z");
           ("build-1-build", started_at "build" "2022-03-01T10:05:00Z")]
        = filter (starts_at (L := timed_lib) k)
            [("build-1-build", started_at "build" "2022-03-01T10:05:00Z");
             ("build-1-clone", started_at "clone" "2022-03-01T10:00:00Z")]).
Proof.
  apply (get_sorted_task_runs_sorted (L := timed_lib)
           (JObj [("build-1-build", started_at "build" "2022-03-01T10:05:00Z");
                  ("build-1-clone", started_at "clone" "2022-03-01T10:00:00Z")]));
    reflexivity.
Defined.

(** ** Cancelled task runs, and runs that do not exist *)

Section Cancelled.
Context {L : Externals}.




End Cancelled.


Section MissingRun.
Context {L : Externals}.
Variable self : PipelineRun.t.

Lemma data_of_missing_run (w w1 : world) (r : response) :
  Openshift.get (PipelineRun.os self) (PipelineRun.pipeline_run_url self) true [] [] w
  = (Ok r, w1) ->
  body_json r = Raise (OsbsResponseException 404) ->
  PipelineRun.data self w = (Ok JNull, w1).
Proof.
  intros Hget H404. unfold PipelineRun.data, PipelineRun.get_info, bind, ret, lift.
  rewrite Hget. unfold PipelineRun._check_response. now rewrite H404.
Qed.

(** X9. When the read of the run is answered 404, the run reads as None:
    has_not_finished is false, so wait_for_finish returns after that one
    read without sleeping; get_error_message returns None; and
    any_task_failed raises TypeError, for subscripting None. *)
Theorem missing_run_reads_as_none (w w1 : world) (r : response) :
  Openshift.get (PipelineRun.os self) (PipelineRun.pipeline_run_url self) true [] [] w
  = (Ok r, w1) ->
  body_json r = Raise (OsbsResponseException 404) ->
  PipelineRun.has_not_finished self w = (Ok false, w1)
  /\ PipelineRun.wait_for_finish self w = (Ok tt, w1)
  /\ PipelineRun.get_error_message self w = (Ok None, w1)
  /\ PipelineRun.any_task_failed self w
     = (Raise (TypeError "object is not subscriptable"), w1).
Proof.
  intros Hget H404. pose proof (data_of_missing_run _ _ _ Hget H404) as Hd.
  assert (Hnf : PipelineRun.has_not_finished self w = (Ok false, w1)).
  { unfold PipelineRun.has_not_finished, PipelineRun.status_status, bind.
    now rewrite Hd. }
  split; [exact Hnf|]. split; [|split].
  - unfold PipelineRun.wait_for_finish. change WAIT_RETRY with (S 3599).
    generalize 3599%nat. intro n. now rewrite wait_loop_step, Hnf.
  - unfold PipelineRun.get_error_message, bind. now rewrite Hd.
  - unfold PipelineRun.any_task_failed, PipelineRun._any_task_run_in_state, bind.
    now rewrite Hd.
Qed.

End MissingRun.

(** X9, witness: the cluster answers 404. *)
Lemma missing_run_reads_as_none_witness :
  fst (PipelineRun.wait_for_finish (L := sample_lib) sample_run (world_of [error_reply 404]))
  = Ok tt
  /\ slept (snd (PipelineRun.wait_for_finish (L := sample_lib) sample_run
                   (world_of [error_reply 404]))) = []
  /\ fst (PipelineRun.get_error_message (L := sample_lib) sample_run
            (world_of [error_reply 404])) = Ok None.
Proof.
  destruct (missing_run_reads_as_none (L := sample_lib) sample_run
              (world_of [error_reply 404]) _
              (Response 404 [] "" (Ok "") (Raise (OsbsResponseException 404)) [] None)
              eq_refl eq_refl) as (_ & Hw & He & _).
  rewrite Hw, He. repeat split.
Defined.

(** ** Every task run is reported *)

Lemma existsb_eqb_true (x : string) (l : list string) :
  existsb (String.eqb x) l = true -> In x l.
Proof.
  intro H. apply existsb_exists in H. destruct H as (y & Hy & E).
  apply String.eqb_eq in E. now subst.
Qed.

(** One pass over [task_runs.items()] adds to [watched_task_runs] every name
    of the dict, and appends to the batch exactly the names that were not
    watched yet. *)
Lemma new_task_runs_exact (items : list (string * json)) :
  forall watched current watched' current',
    PipelineRun.new_task_runs items watched current = Ok (watched', current') ->
    (forall n, In n watched' <-> In n watched \/ In n (map fst items))
    /\ (forall n, In n (map snd current') <->
                  In n (map snd current) \/ (In n (map fst items) /\ ~ In n watched)).
Proof.
  induction items as [|[name tr] items IH]; intros watched current watched' current'; simpl.
  - intro H. injection H as <- <-. split; intro n; tauto.
  - destruct (existsb (String.eqb name) watched) eqn:Hseen.
    + intro H. destruct (IH _ _ _ _ H) as [Hw Hc].
      apply existsb_eqb_true in Hseen. split; intro n.
      * rewrite Hw. split; [tauto|]. intros [H1|[<-|H1]]; tauto.
      * rewrite Hc. split; [tauto|]. intros [H1|[[<-|H1] H2]]; tauto.
    + destruct (getitem tr "pipelineTaskName") as [task|e]; [|discriminate].
      simpl. intro H. destruct (IH _ _ _ _ H) as [Hw Hc].
      apply existsb_eqb_false in Hseen. split; intro n.
      * rewrite Hw. simpl. tauto.
      * rewrite Hc, map_app, in_app_iff. simpl.
        destruct (String.eqb_spec name n) as [->|Hne]; [tauto|].
        split; [intros [[H1|[H1|[]]]|[H1 H2]]; try tauto; try contradiction
               |intros [H1|[[H1|H1] H2]]; try tauto; contradiction].
Qed.

(** One turn that goes on has reported every name the snapshot lists and
    only those, beside what was watched. *)
Lemma taskruns_turn_exact (watched watched' : list string) (pipeline_run : json)
    (ys : list (list (json * string))) :
  PipelineRun.taskruns_turn watched pipeline_run = (ys, Ok (Next watched')) ->
  (forall n, In n watched' <-> In n watched \/ In n (task_run_names pipeline_run))
  /\ (forall n, In n (reported ys) <->
                In n (task_run_names pipeline_run) /\ ~ In n watched).
Proof.
  unfold PipelineRun.taskruns_turn, task_run_names.
  destruct (getitem pipeline_run "status") as [st|e]; simpl.
  2:{ destruct e; try discriminate. intro H. injection H as <- <-.
      split; intro n; simpl; tauto. }
  destruct (getitem st "taskRuns") as [trs|e]; simpl.
  2:{ destruct e; try discriminate. intro H. injection H as <- <-.
      split; intro n; simpl; tauto. }
  destruct (dict_items trs) as [items|e]; simpl; [|discriminate].
  destruct (PipelineRun.new_task_runs items watched []) as [[watched1 current]|e] eqn:Hn;
    [|discriminate].
  intro H. injection H as <- H.
  assert (watched1 = watched') as ->.
  { destruct (first_condition pipeline_run "status") as [status|e].
    - destruct (_ || _)%bool; [discriminate | now injection H].
    - destruct e; discriminate. }
  destruct (new_task_runs_exact _ _ _ _ _ Hn) as [Hw Hc]. split; [exact Hw|].
  intro n. unfold reported. simpl. rewrite app_nil_r, Hc. simpl. tauto.
Qed.

Lemma taskruns_over_exact (snaps : list json) :
  forall watched watched' batches,
    turns_over PipelineRun.taskruns_turn snaps watched = (batches, Ok (Next watched')) ->
    (forall n, In n watched' <->
               In n watched \/ exists s, In s snaps /\ In n (task_run_names s))
    /\ (forall n, In n (reported batches) <->
                  (exists s, In s snaps /\ In n (task_run_names s)) /\ ~ In n watched).
Proof.
  induction snaps as [|snapshot snaps IH]; intros watched watched' batches; simpl.
  - intro H. injection H as <- <-.
    split; intro n; simpl; split; try tauto.
    + intros [H|(s & [] & _)]. assumption.
    + intros [(s & [] & _) _].
  - destruct (PipelineRun.taskruns_turn watched snapshot) as [ys [[watched1|r]|e]] eqn:Ht;
      try discriminate.
    destruct (turns_over PipelineRun.taskruns_turn snaps watched1) as [ys' r'] eqn:Hrest.
    intro H. injection H as <- ->.
    destruct (taskruns_turn_exact _ _ _ _ Ht) as [Hw1 Hr1].
    destruct (IH _ _ _ Hrest) as [Hw2 Hr2].
    split; intro n.
    + rewrite Hw2, Hw1. split.
      * intros [[H|H]|(s & Hs & Hn)]; [tauto | right; eauto | right; eauto].
      * intros [H|(s & [<-|Hs] & Hn)]; [tauto | tauto | right; eauto].
    + unfold reported in *. rewrite concat_app, map_app, in_app_iff, Hr1, Hr2, Hw1.
      split.
      * intros [[H1 H2]|[(s & Hs & Hn) H2]]; (split; [eauto | tauto]).
      * intros [(s & [<-|Hs] & Hn) H2]; [tauto|].
        destruct (in_dec string_dec n (task_run_names snapshot)); [tauto|].
        right. split; [eauto | tauto].
Qed.

(** X10. The names wait_for_taskruns reports are those the watch of the
    pipeline run delivered: every task-run name listed by a snapshot that the
    loop consumed and went on from is reported, none being left out; and when
    the loop goes on to the end of the watch, the names reported are exactly
    the names listed by the snapshots delivered, none being made up. *)
Theorem wait_for_taskruns_reports_all (L : Externals) (self : PipelineRun.t) (w : world)
    (before after : list json) (seen : list string) :
  let delivered :=
    fst (fst (Openshift.snapshots (PipelineRun.os self) PipelineRun.api_path
                PipelineRun.api_version "pipelineruns"
                (PipelineRun.pipeline_run_name self) [] w)) in
  let batches := fst (fst (PipelineRun.wait_for_taskruns self w)) in
  delivered = before ++ after ->
  snd (turns_over PipelineRun.taskruns_turn before []) = Ok (Next seen) ->
  (forall n, (exists s, In s before /\ In n (task_run_names s)) -> In n (reported batches))
  /\ (after = [] ->
      forall n, In n (reported batches) <->
                exists s, In s delivered /\ In n (task_run_names s)).
Proof.
  intros delivered batches Hd Hbefore.
  pose proof (wait_for_taskruns_follows self w) as [Hys _].
  fold delivered in Hys. fold batches in Hys.
  destruct (turns_over PipelineRun.taskruns_turn before []) as [yb rb] eqn:Hturns.
  cbn [snd] in Hbefore. subst rb.
  destruct (taskruns_over_exact _ _ _ _ Hturns) as [_ Hexact].
  split.
  - intros n Hn. rewrite Hys, Hd, turns_over_app, Hturns.
    destruct (turns_over PipelineRun.taskruns_turn after seen) as [ya ra]. cbn [fst].
    unfold reported. rewrite concat_app, map_app, in_app_iff. left.
    apply Hexact. split; [exact Hn | intros []].
  - intros -> n. rewrite app_nil_r in Hd. rewrite Hys, Hd, Hturns. cbn [fst].
    rewrite Hexact. simpl. tauto.
Qed.

(** X10, witness: a watch that delivers a run without task runs, then the
    run with one task run, still running. *)
Lemma wait_for_taskruns_reports_all_witness :
  In "build-1-clone"
    (reported (fst (fst (PipelineRun.wait_for_taskruns (L := sample_lib) sample_run
                           (world_of [watch_reply [event_line; event_line];
                                      json_reply running_snapshot;
                                      json_reply
                                        (snapshot_of "Unknown" "Running"
                                           (Some [("build-1-clone",
                                                   task_run "clone" "Unknown" "Running"
                                                     None)]))]))))).
Proof.
  apply (proj1 (wait_for_taskruns_reports_all sample_lib sample_run
                  (world_of [watch_reply [event_line; event_line];
                             json_reply running_snapshot;
                             json_reply
                               (snapshot_of "Unknown" "Running"
                                  (Some [("build-1-clone",
                                          task_run "clone" "Unknown" "Running" None)]))])
                  [running_snapshot;
                   snapshot_of "Unknown" "Running"
                     (Some [("build-1-clone", task_run "clone" "Unknown" "Running" None)])]
                  [] ["build-1-clone"] eq_refl eq_refl)).
  eexists. split; [right; left; reflexivity | left; reflexivity].
Defined.

(** ** What is sent *)

Lemma sent_only_refl (P : request -> Prop) (w : world) : sent_only P w w.
Proof. exists []. split; [now rewrite app_nil_r | constructor]. Qed.

Lemma sent_only_trans (P : request -> Prop) (w1 w2 w3 : world) :
  sent_only P w1 w2 -> sent_only P w2 w3 -> sent_only P w1 w3.
Proof.
  intros (a & Ha & Pa) (b & Hb & Pb). exists (a ++ b).
  split; [now rewrite Hb, Ha, app_assoc | now apply Forall_app].
Qed.

Lemma sent_only_impl (P Q : request -> Prop) (w w' : world) :
  (forall rq, P rq -> Q rq) -> sent_only P w w' -> sent_only Q w w'.
Proof.
  intros H (a & Ha & Pa). exists a. split; [assumption|].
  eapply Forall_impl; eassumption.
Qed.

Lemma sent_only_same (P : request -> Prop) (w w' : world) :
  sent w' = sent w -> sent_only P w w'.
Proof. intro H. exists []. split; [now rewrite app_nil_r | constructor]. Qed.

Section Sent.
Context {L : Externals}.
Variable self : Openshift.t.

Lemma session_sent (P : request -> Prop) (rq : request) (w : world) :
  P rq -> sent_only P w (snd (session rq w)).
Proof.
  intro H. exists [rq]. split; [|now repeat constructor].
  unfold session. now destruct (replies w).
Qed.

(** A request sends what its token exchange sends, then at most itself. *)
Lemma call_sent (P : request -> Prop) (exchange : io string) (v : verb) (u : url)
    (with_auth : bool) (hdrs : list (string * string)) (kwargs : list (string * json))
    (w : world) :
  (forall w0, sent_only P w0 (snd (exchange w0))) ->
  (forall rq, rq_verb rq = v -> rq_url rq = u -> P rq) ->
  sent_only P w (snd (Openshift.call self exchange v u with_auth hdrs kwargs w)).
Proof.
  intros Hex Hme.
  unfold Openshift.call, Openshift._request_args, bind, get_token, ret, raise.
  destruct with_auth, (Openshift.use_auth self); cbn [andb]; cbv beta iota;
    try (destruct (token w) as [t|] eqn:Htok; cbv beta iota;
         [rewrite Htok
         |specialize (Hex w); destruct (exchange w) as [[x|e] w1]; cbn [snd] in Hex;
          [|exact Hex]]);
    repeat match goal with
           | |- context [if ?b then _ else _] => destruct b
           end;
    cbv beta iota; cbn [snd];
    try apply sent_only_refl; try assumption;
    try (apply session_sent; now apply Hme);
    (eapply sent_only_trans; [exact Hex | apply session_sent; now apply Hme]).
Qed.

Lemma get_oauth_token_sent (w : world) :
  sent_only (exchange_request self) w (snd (Openshift.get_oauth_token self w)).
Proof.
  assert (Hplain : forall kwargs w0,
             sent_only (exchange_request self) w0
               (snd (Openshift.call self (ret "") GET (Openshift.oauth_url self)
                       false [] kwargs w0))).
  { intros. apply call_sent; [intro; apply sent_only_refl | now split]. }
  assert (Hr : sent_only (exchange_request self) w
                 (snd (Openshift.redirect_request self w))).
  { unfold Openshift.redirect_request.
    destruct (Openshift.use_auth self); [|apply Hplain].
    destruct (given (Openshift.username self) && given (Openshift.password self))%bool;
      [apply Hplain|].
    destruct (Openshift.use_kerberos self); [|apply Hplain].
    unfold bind. destruct (given (Openshift.kerberos_keytab self)).
    - destruct (negb (given (Openshift.kerberos_principal self)));
        [apply sent_only_refl|].
      unfold lift. destruct (kerberos_ccache_init _ _ _);
        [apply Hplain | apply sent_only_refl].
    - unfold ret. apply Hplain. }
  unfold Openshift.get_oauth_token, bind.
  destruct (Openshift.redirect_request self w) as [[r|e] w1]; cbn [snd] in *; [|exact Hr].
  unfold Openshift.token_of_redirect.
  destruct (header "location" (headers r)); [|exact Hr].
  destruct (assoc "access_token" _) as [[|tok more]|]; exact Hr.
Qed.

(** A GET sends requests of the token exchange and GETs of its url. *)
Lemma get_sent (u : url) (with_auth : bool) (hdrs : list (string * string))
    (kwargs : list (string * json)) (w : world) :
  sent_only (fun rq => exchange_request self rq \/ (rq_verb rq = GET /\ rq_url rq = u))
    w (snd (Openshift.get self u with_auth hdrs kwargs w)).
Proof.
  apply call_sent.
  - intro w0. eapply sent_only_impl; [|apply get_oauth_token_sent]. auto.
  - auto.
Qed.

End Sent.

Section WatchSent.
Context {L : Externals} {Y S R : Type}.
Variable self : Openshift.t.
Variable body : S -> json -> gen Y (flow S R).
Variables watch_url get_url : url.
Hypothesis body_sent : forall s snapshot w, sent (snd (body s snapshot w)) = sent w.

Local Abbreviation allowed := (watch_allowed self watch_url get_url).

Lemma fresh_copy_sent (w : world) :
  sent_only allowed w (snd (Openshift.fresh_copy self get_url w)).
Proof.
  unfold Openshift.fresh_copy, bind, lift.
  pose proof (get_sent self get_url true [] [] w) as Hg.
  assert (Hg' : sent_only allowed w (snd (Openshift.get self get_url true [] [] w))).
  { eapply sent_only_impl; [|exact Hg]. unfold watch_allowed, watch_request. tauto. }
  destruct (Openshift.get self get_url true [] [] w) as [[r|e] w1]; cbn [snd] in *;
    [|exact Hg'].
  pose proof (check_response_world r w1) as Hc.
  destruct (check_response r w1) as [[[]|e] w2]; cbn [snd] in *; now subst.
Qed.

Lemma on_lines_sent (ls : list line) (fin : option exn) :
  forall s w,
    sent_only allowed w (snd (Openshift.on_lines self body get_url s ls fin w)).
Proof.
  induction ls as [|l ls IH]; intros s w; cbn [Openshift.on_lines].
  - destruct fin; apply sent_only_refl.
  - destruct (loads l) as [j|e]; [|destruct e; try apply sent_only_refl; apply IH].
    destruct (py_in "object" j) as [[|]|]; try apply sent_only_refl; [|apply IH].
    destruct (py_in "type" j) as [[|]|]; try apply sent_only_refl; [|apply IH].
    pose proof (fresh_copy_sent w) as Hf.
    destruct (Openshift.fresh_copy self get_url w) as [[snapshot|e] w1]; cbn [snd] in *;
      [|exact Hf].
    pose proof (body_sent s snapshot w1) as Hb.
    destruct (body s snapshot w1) as [[ys [[s1|r]|e]] w2]; cbn [snd] in *;
      try (eapply sent_only_trans; [exact Hf | now apply sent_only_same]).
    specialize (IH s1 w2).
    destruct (Openshift.on_lines self body get_url s1 ls fin w2) as [[ys' t] w3].
    cbn [snd] in *.
    eapply sent_only_trans; [exact Hf|].
    eapply sent_only_trans; [apply sent_only_same; exact Hb | exact IH].
Qed.

Lemma attempt_sent (s : S) (w : world) :
  sent_only allowed w (snd (Openshift.attempt self body watch_url get_url s w)).
Proof.
  unfold Openshift.attempt, bind, ret.
  pose proof (get_sent self watch_url true [("Connection", "close")]
                [("stream", JBool true)] w) as Hg.
  assert (Hg' : sent_only allowed w
                  (snd (Openshift.get self watch_url true [("Connection", "close")]
                          [("stream", JBool true)] w))).
  { eapply sent_only_impl; [|exact Hg]. unfold watch_allowed, watch_request. tauto. }
  destruct (Openshift.get self watch_url true _ _ w) as [[r|e] w1]; cbn [snd] in *;
    [|exact Hg'].
  pose proof (check_response_world r w1) as Hc.
  destruct (check_response r w1) as [[[]|e] w2]; cbn [snd] in *; subst; [|exact Hg'].
  eapply sent_only_trans; [exact Hg' | apply on_lines_sent].
Qed.

Lemma watch_loop_sent (n : nat) :
  forall bad_responses s w,
    sent_only allowed w
      (snd (Openshift.watch_loop self body watch_url get_url n bad_responses s w)).
Proof.
  induction n as [|n IH]; intros bad s w; cbn [Openshift.watch_loop].
  - apply sent_only_refl.
  - pose proof (attempt_sent s w) as Ha.
    destruct (Openshift.attempt self body watch_url get_url s w) as [[ys t] w1].
    cbn [snd] in Ha.
    assert (Hgo : forall bad' s1,
               sent_only allowed w
                 (snd (match Openshift.watch_loop self body watch_url get_url n bad' s1
                               (snd (Openshift.log_and_sleep w1)) with
                       | (ys', r, w2) => (ys ++ ys', r, w2)
                       end))).
    { intros bad' s1. specialize (IH bad' s1 (snd (Openshift.log_and_sleep w1))).
      destruct (Openshift.watch_loop _ _ _ _ n bad' s1 _) as [[ys' r] w2].
      cbn [snd] in *. eapply sent_only_trans; [exact Ha|].
      eapply sent_only_trans; [|exact IH]. now apply sent_only_same. }
    destruct t as [s1|[r|e]|s1 e]; try exact Ha; try apply Hgo.
    destruct (Openshift.on_exception bad e) as [bad' [e'|]]; [exact Ha | apply Hgo].
Qed.

End WatchSent.

(** X11. A watch only reads: every request that one run of watch_resource
    sends is a GET, of the watch url, of the url of the watched object, or
    of the token exchange. *)
Theorem watch_resource_only_reads (L : Externals) (self : Openshift.t)
    (api_path api_version resource_type resource_name : string)
    (request_args : list (string * json)) (w : world) :
  sent_only
    (fun rq =>
       exchange_request self rq \/
       watch_request
         (Openshift.watch_url self api_path api_version resource_type resource_name
            request_args)
         (Openshift.get_url self api_path api_version resource_type resource_name) rq)
    w
    (snd (Openshift.snapshots self api_path api_version resource_type resource_name
            request_args w)).
Proof.
  unfold Openshift.snapshots, Openshift.watch_resource.
  pose proof (watch_loop_sent self Openshift.collect
                (Openshift.watch_url self api_path api_version resource_type
                   resource_name request_args)
                (Openshift.get_url self api_path api_version resource_type resource_name)
                (fun _ _ _ => eq_refl) WATCH_RETRY 0%nat tt w) as H.
  now destruct (Openshift.watch_loop _ _ _ _ _ _ _ _) as [[ys [r|e]] w'].
Qed.

Section LogSent.
Context {L : Externals}.
Variable self : Pod.t.
Variable container : string.

Local Abbreviation allowed := (log_allowed self container).
Local Abbreviation log_kwargs := (log_kwargs container).

Lemma assoc_dict_set_other {V} (k k' : string) (v : V) (m : list (string * V)) :
  k' <> k -> assoc k' (dict_set k v m) = assoc k' m.
Proof.
  intro Hne. induction m as [|[k0 v0] m IH]; simpl.
  - destruct (String.eqb_spec k k'); [now subst | reflexivity].
  - destruct (String.eqb_spec k0 k) as [->|H0]; simpl.
    + destruct (String.eqb_spec k k'); [now subst|].
      destruct (String.eqb_spec k k'); [now subst | reflexivity].
    + destruct (String.eqb_spec k0 k'); [reflexivity | exact IH].
Qed.

Lemma read_lines_sent (ls : list line) (fin : option exn) :
  forall connected w, sent (snd (Pod.read_lines ls fin connected w)) = sent w.
Proof.
  induction ls as [|l ls IH]; intros connected w; cbn [Pod.read_lines]; [reflexivity|].
  destruct (utf8 l) as [text|e]; [|reflexivity].
  specialize (IH (reading w) (tick w)).
  now destruct (Pod.read_lines ls fin (reading w) (tick w)) as [[ys r] w2].
Qed.

Lemma stream_once_sent (kwargs : list (string * json)) (w : world) :
  log_kwargs kwargs ->
  sent_only allowed w (snd (Pod.stream_once self kwargs w))
  /\ forall kwargs', snd (fst (Pod.stream_once self kwargs w)) = Ok (Next kwargs') ->
                     log_kwargs kwargs'.
Proof.
  intros [Hfollow Hcont].
  assert (Hclosed : forall connected ended ys w0,
             sent (snd (Pod.closed kwargs connected ended ys w0)) = sent w0
             /\ forall kwargs',
                  snd (fst (Pod.closed kwargs connected ended ys w0)) = Ok (Next kwargs') ->
                  log_kwargs kwargs').
  { intros connected ended ys w0.
    assert (Hafter : sent (snd (Pod.after_close kwargs connected w0)) = sent w0
                     /\ forall kwargs',
                          fst (Pod.after_close kwargs connected w0) = Ok (Next kwargs') ->
                          log_kwargs kwargs').
    { unfold Pod.after_close, bind, time_time, ret, lift. cbv beta iota.
      destruct (_ <? _)%float; cbn [fst snd]; [split; [reflexivity | discriminate]|].
      destruct (py_int _) as [since|e]; cbn [fst snd];
        (split; [reflexivity|]); [|discriminate].
      intros kwargs' H. injection H as <-.
      split; [|intro Hc]; rewrite assoc_dict_set_other by discriminate; auto. }
    unfold Pod.closed.
    destruct (Pod.after_close kwargs connected w0) as [r' w'] eqn:Hrun.
    cbn [fst snd] in Hafter.
    destruct ended as [e|]; [destruct (Pod.swallowed e)|]; cbn [snd fst];
      try exact Hafter. split; [reflexivity | discriminate]. }
  unfold Pod.stream_once, Pod.connect, Pod.log_response, bind, ret.
  pose proof (get_sent (Pod.os self) (Pod.log_url self kwargs) true
                [("Connection", "close")] [("stream", JBool true)] (tick w)) as Hg.
  assert (Hg' : sent_only allowed w
                  (snd (Openshift.get (Pod.os self) (Pod.log_url self kwargs) true
                          [("Connection", "close")] [("stream", JBool true)] (tick w)))).
  { destruct Hg as (added & Ha & Hall). exists added. split; [exact Ha|].
    eapply Forall_impl; [|exact Hall]. intros rq [H|[Hv Hu]]; [now left|].
    right. unfold log_request. rewrite Hu. repeat split; auto. }
  destruct (Openshift.get (Pod.os self) (Pod.log_url self kwargs) true _ _ (tick w))
    as [[r|e] w1]; cbn [snd] in *.
  2:{ destruct (Hclosed (reading w) (Some e) [] w1) as [Hs Hk].
      split; [|exact Hk]. eapply sent_only_trans; [exact Hg' | now apply sent_only_same]. }
  pose proof (check_response_world r w1) as Hc.
  destruct (check_response r w1) as [[[]|e] w2]; cbn [snd] in Hc; subst w2.
  - pose proof (read_lines_sent (iter_lines r) (iter_end r) (reading w) w1) as Hrl.
    destruct (Pod.read_lines (iter_lines r) (iter_end r) (reading w) w1)
      as [[ys [connected ended]] w3]. cbn [snd] in Hrl.
    destruct (Hclosed connected ended ys w3) as [Hs Hk].
    split; [|exact Hk].
    eapply sent_only_trans; [exact Hg' | apply sent_only_same; congruence].
  - destruct (Hclosed (reading w) (Some e) [] w1) as [Hs Hk].
    split; [|exact Hk]. eapply sent_only_trans; [exact Hg' | now apply sent_only_same].
Qed.

Lemma stream_loop_sent (fuel : nat) :
  forall kwargs w,
    log_kwargs kwargs ->
    sent_only allowed w (snd (Pod.stream_loop self fuel kwargs w)).
Proof.
  induction fuel as [|fuel IH]; intros kwargs w Hk; cbn [Pod.stream_loop].
  - apply sent_only_refl.
  - destruct (stream_once_sent kwargs w Hk) as [Hs Hnext].
    destruct (Pod.stream_once self kwargs w) as [[ys [[kwargs'|r]|e]] w1];
      cbn [snd fst] in *; try exact Hs.
    specialize (IH kwargs' w1 (Hnext _ eq_refl)).
    destruct (Pod.stream_loop self fuel kwargs' w1) as [[ys' r] w2]. cbn [snd] in *.
    eapply sent_only_trans; eassumption.
Qed.

End LogSent.

(** X12. Through all its reconnections, _stream_logs asks for the same
    thing: every request it sends is a GET of the pod's log with
    follow=True, for the container it was called with when that is not
    empty, or belongs to the token exchange. *)
Theorem stream_logs_requests (L : Externals) (self : Pod.t) (fuel : nat)
    (container : string) (w : world) :
  sent_only
    (fun rq => exchange_request (Pod.os self) rq \/ log_request self container rq)
    w (snd (Pod._stream_logs self fuel container w)).
Proof.
  unfold Pod._stream_logs. apply (stream_loop_sent self container).
  unfold log_kwargs.
  destruct (String.eqb_spec container "") as [->|Hne]; simpl.
  - split; [reflexivity | intro H; now destruct H].
  - split; [reflexivity | reflexivity].
Qed.
